(** * che-theia: the ports plugin and the Che credentials service

    A shallow embedding of two TypeScript sources:

    - [plugins/ports-plugin/src/ports-plugin.ts]: the policy that reacts to a
      port being opened in the workspace ([askRedirect], [onOpenPort],
      [onClosedPort], [start]);
    - the [CheCredentialsService] class, a credentials store kept in the
      Kubernetes secrets of the workspace namespace.

    Both are effectful: they mutate module-level arrays or a remote store and
    talk to the user, the console and an event emitter.  Every function is
    embedded as a computation in a state-and-exception monad; the state
    carries the mutable data together with the chronological list of the
    effects performed so far, and a rejected promise or a thrown exception is
    the [Throw] result (the state reached at the point of the throw is kept,
    as mutations of JavaScript objects are).

    Strings are [string] (a JavaScript string restricted to one-byte code
    units), numbers that the code uses as integers are [Z]. *)

From Stdlib Require Import ZArith String Ascii List Bool Lia DecimalString.
From stdpp Require Import base option list strings gmap.
Import ListNotations.

Open Scope string_scope.

(* ===================================================================== *)
(** * JavaScript built-ins used by the sources *)
(* ===================================================================== *)

Module Js.

(** [s.startsWith(pattern)]. *)
Definition startsWith (s pattern : string) : bool := String.prefix pattern s.

(** [s.substring(start)]: the characters from index [start] to the end;
    a [start] beyond the end yields the empty string. *)
Fixpoint substring (start : nat) (s : string) : string :=
  match start, s with
  | O, _ => s
  | S n, EmptyString => EmptyString
  | S n, String _ r => substring n r
  end.

(** [Number.prototype.toString], also the conversion inside a template
    literal, on an integral number: decimal digits, with a leading minus
    sign for a negative number (exact below 10^21, where JavaScript
    switches to the exponent form). *)
Definition toString (n : Z) : string := NilZero.string_of_int (Z.to_int n).

(** White space skipped by [parseInt]: the members of the ECMAScript
    [WhiteSpace] and [LineTerminator] classes below 256 (tab, line feed,
    vertical tab, form feed, carriage return, space, no-break space). *)
Definition isWhiteSpace (c : ascii) : bool :=
  let n := nat_of_ascii c in
  (((9 <=? n) && (n <=? 13)) || (n =? 32) || (n =? 160))%nat.

Fixpoint trimStart (s : string) : string :=
  match s with
  | String c r => if isWhiteSpace c then trimStart r else s
  | EmptyString => s
  end.

Definition digitValue (c : ascii) : option Z :=
  let n := nat_of_ascii c in
  if ((48 <=? n) && (n <=? 57))%nat then Some (Z.of_nat (n - 48)) else None.

(** The value of the longest prefix of decimal digits; [acc] is the value
    read so far, [None] while no digit has been read. *)
Fixpoint digits (s : string) (acc : option Z) : option Z :=
  match s with
  | String c r =>
      match digitValue c with
      | Some d => digits r (Some (10 * default 0%Z acc + d)%Z)
      | None => acc
      end
  | EmptyString => acc
  end.

(** [parseInt(s, 10)]; [None] is [NaN].  Leading white space is skipped,
    one sign is accepted, then the longest run of digits is read (the value
    is exact; a JavaScript number rounds it above 2^53). *)
Definition parseInt10 (s : string) : option Z :=
  match trimStart s with
  | String "-"%char r => Z.opp <$> digits r None
  | String "+"%char r => digits r None
  | r => digits r None
  end.

(** The line feed that a multi-line template literal contains. *)
Definition LF : string := String (ascii_of_nat 10) EmptyString.

End Js.

(* ===================================================================== *)
(** * Computations: state threaded through, exceptions propagated *)
(* ===================================================================== *)

Inductive Error : Type :=
| TypeError                    (* a property read on [undefined] *)
| Rejected (reason : string).  (* a collaborator threw or rejected *)

Inductive Result (A : Type) : Type :=
| Ok (a : A)
| Throw (e : Error).
Arguments Ok {A} a.
Arguments Throw {A} e.

Definition M (S A : Type) : Type := S -> Result A * S.

Definition ret {S A : Type} (a : A) : M S A := fun s => (Ok a, s).

Definition throw {S A : Type} (e : Error) : M S A := fun s => (Throw e, s).

Definition bind {S A B : Type} (c : M S A) (k : A -> M S B) : M S B :=
  fun s =>
    match c s with
    | (Ok a, s') => k a s'
    | (Throw e, s') => (Throw e, s')
    end.

Definition gets {S A : Type} (f : S -> A) : M S A := fun s => (Ok (f s), s).

Definition modify {S : Type} (f : S -> S) : M S unit := fun s => (Ok tt, f s).

(** [try { c } catch (e) { handler e }]. *)
Definition try_catch {S A : Type} (c : M S A) (handler : Error -> M S A) : M S A :=
  fun s =>
    match c s with
    | (Ok a, s') => (Ok a, s')
    | (Throw e, s') => handler e s'
    end.

Notation "'let*' x ':=' c 'in' k" := (bind c (fun x => k))
  (at level 10, x name, c at level 100, k at level 200).
Notation "c1 '>>' c2" := (bind c1 (fun _ => c2))
  (at level 80, right associativity).

(* ===================================================================== *)
(** * The ports plugin *)
(* ===================================================================== *)

(** Modelled from the spec: the [Port] class ([./port], not among the
    sources) is "an observed OS-level listening endpoint" with a port number
    (an integer) and a bind interface address (a string). *)
Module Port.
Record t : Type := mk { portNumber : Z; interfaceListen : string }.
End Port.

(** Modelled from the spec: the [WorkspacePort] interface
    ([./workspace-port], not among the sources) is a declared server endpoint
    with a "string-typed numeric" port number, a server name and an
    externally reachable URL. *)
Module WorkspacePort.
Record t : Type := mk { portNumber : string; serverName : string; url : string }.
End WorkspacePort.

Module PortsPlugin.

(* constants *)
Definition LISTEN_ALL_IPV4 : string := "0.0.0.0".
Definition LISTEN_ALL_IPV6 : string := "::".
Definition SERVER_REDIRECT_PATTERN : string := "theia-redirect-".

Record MessageItem : Type := { title : string }.

(** The arguments of [new PortRedirectListener(localPort, remoteHost,
    remotePort)]; [localPort] is the result of [parseInt]. *)
Record PortRedirectListener : Type :=
  { localPort : option Z; remoteHost : string; remotePort : Z }.

(** What the plugin does to the outside world. *)
Inductive Effect : Type :=
| ShowErrorMessage (message : string) (modal : bool)
| ShowInformationMessage (message : string) (modal : bool) (items : list MessageItem)
| ListenerStart (listener : PortRedirectListener)
| ExecuteCommand (command : string) (argument : string)
| ConsoleInfo (message : string)
| OnDidOpenPort
| OnDidClosePort
| DetectorInit
| DetectorCheck.

(** The module-level variables and the environment.
    - [workspacePorts], [redirectPorts]: the two module-level arrays;
    - [replies]: what the user answers to the information messages still
      to come, in order ([None] is a dismissed message, which is also the
      answer once the list is used up);
    - [startThrows]: whether [PortRedirectListener.start] (not among the
      sources) throws for a given listener;
    - [effects]: the effects performed so far, oldest first. *)
Record World : Type := mkWorld
  { workspacePorts : list WorkspacePort.t;
    redirectPorts : list WorkspacePort.t;
    replies : list (option MessageItem);
    startThrows : PortRedirectListener -> bool;
    effects : list Effect }.

Definition perform (e : Effect) : M World unit :=
  modify (fun w => mkWorld (workspacePorts w) (redirectPorts w) (replies w)
                           (startThrows w) (effects w ++ [e])).

(** [await theia.window.showErrorMessage(message, { modal })]. *)
Definition showErrorMessage (message : string) (modal : bool) : M World unit :=
  perform (ShowErrorMessage message modal).

(** [await theia.window.showInformationMessage(message, { modal }, ...items)]:
    the message is shown and the user's next reply is the result. *)
Definition showInformationMessage (message : string) (modal : bool)
    (items : list MessageItem) : M World (option MessageItem) :=
  perform (ShowInformationMessage message modal items) >>
  let* answers := gets replies in
  modify (fun w => mkWorld (workspacePorts w) (redirectPorts w) (tail answers)
                           (startThrows w) (effects w)) >>
  ret (hd None answers).

(** [result && result.title === wanted]. *)
Definition chose (wanted : string) (result : option MessageItem) : bool :=
  match result with
  | Some item => String.eqb (title item) wanted
  | None => false
  end.

(** [Array.prototype.pop]: the last element and the array without it. *)
Fixpoint pop {A : Type} (l : list A) : option A * list A :=
  match l with
  | [] => (None, [])
  | [x] => (Some x, [])
  | x :: r => let (last, r') := pop r in (last, x :: r')
  end.

(** [redirectPorts.pop()]. *)
Definition redirectPorts_pop : M World (option WorkspacePort.t) :=
  let* pool := gets redirectPorts in
  modify (fun w => mkWorld (workspacePorts w) (snd (pop pool)) (replies w)
                           (startThrows w) (effects w)) >>
  ret (fst (pop pool)).

(** [portRedirectListener.start()]. *)
Definition start_listener (listener : PortRedirectListener) : M World unit :=
  perform (ListenerStart listener) >>
  let* fails := gets (fun w => startThrows w listener) in
  if fails then throw (Rejected "PortRedirectListener.start") else ret tt.

Definition redirectEnabledMessage (port : Port.t) (workspacePort : WorkspacePort.t) : string :=
  "Redirect is now enabled on port " ++ Js.toString (Port.portNumber port)
    ++ ". External URL is " ++ WorkspacePort.url workspacePort.

(** [new PortRedirectListener(parseInt(workspacePort.portNumber, 10), 'localhost',
    port.portNumber)]. *)
Definition listenerFor (port : Port.t) (workspacePort : WorkspacePort.t) : PortRedirectListener :=
  {| localPort := Js.parseInt10 (WorkspacePort.portNumber workspacePort);
     remoteHost := "localhost";
     remotePort := Port.portNumber port |}.

(** The body of [askRedirect] once the user has answered 'yes'. *)
Definition redirect (port : Port.t) : M World unit :=
  (* takes first available port *)
  let* popped := redirectPorts_pop in
  match popped with
  | None => throw TypeError
  | Some workspacePort =>
      (* start a new listener *)
      let portRedirectListener := listenerFor port workspacePort in
      start_listener portRedirectListener >>
      (* show redirect *)
      let redirectInteractions := [ {| title := "Open Link" |} ] in
      let msg := redirectEnabledMessage port workspacePort in
      let* resultShow := showInformationMessage msg true redirectInteractions in
      if chose "Open Link" resultShow
      then perform (ExecuteCommand "mini-browser.openUrl" (WorkspacePort.url workspacePort))
      else ret tt
  end.

(** Prompt user to create a port redirect for the specific port. *)
Definition askRedirect (port : Port.t) (redirectMessage errorMessage : string) : M World unit :=
  (* grab a free redirect *)
  let* pool := gets redirectPorts in
  if (length pool =? 0)%nat then
    showErrorMessage errorMessage true
  else
    let interactions := [ {| title := "yes" |} ] in
    let* result := showInformationMessage redirectMessage true interactions in
    if chose "yes" result then redirect port else ret tt.

Definition internalDesc (port : Port.t) : string :=
  "A new process is now listening on port " ++ Js.toString (Port.portNumber port)
    ++ " but is listening on interface " ++ Port.interfaceListen port
    ++ " which is internal." ++ Js.LF
    ++ "        You should change to be remotely available. Would you want to add a redirect for this port so it becomes available ?".

Definition internalErr (port : Port.t) : string :=
  "A new process is now listening on port " ++ Js.toString (Port.portNumber port)
    ++ " but is listening on interface " ++ Port.interfaceListen port
    ++ " which is internal." ++ Js.LF
    ++ "        This port is not available outside. You should change the code to listen on 0.0.0.0 for example.".

Definition openLinkMessage (matchingWorkspacePort : WorkspacePort.t) : string :=
  "A process is now listening on port " ++ WorkspacePort.portNumber matchingWorkspacePort
    ++ ". External URL is " ++ WorkspacePort.url matchingWorkspacePort.

Definition notExposedDesc (port : Port.t) : string :=
  "A new process is now listening on port " ++ Js.toString (Port.portNumber port)
    ++ " but this port is not exposed in the workspace as a server." ++ Js.LF
    ++ "         Would you want to add a redirect for this port so it becomes available ?".

Definition notExposedErr (port : Port.t) : string :=
  "A new process is now listening on port " ++ Js.toString (Port.portNumber port)
    ++ " but this port is not exposed in the workspace as a server." ++ Js.LF
    ++ "         You should add a new server with this port in order to access it".

Definition nowListeningTrace (port : Port.t) : string :=
  "The port " ++ Js.toString (Port.portNumber port)
    ++ " is now listening on interface " ++ Port.interfaceListen port.

Definition noLongerListeningTrace (port : Port.t) : string :=
  "The port " ++ Js.toString (Port.portNumber port)
    ++ " is no longer listening on interface " ++ Port.interfaceListen port.

(** [port.interfaceListen !== LISTEN_ALL_IPV4 && port.interfaceListen !== LISTEN_ALL_IPV6]. *)
Definition internalInterface (port : Port.t) : bool :=
  negb (String.eqb (Port.interfaceListen port) LISTEN_ALL_IPV4)
  && negb (String.eqb (Port.interfaceListen port) LISTEN_ALL_IPV6).

(** [workspacePorts.find(workspacePort => workspacePort.portNumber === port.portNumber.toString())]. *)
Definition findWorkspacePort (port : Port.t) (declared : list WorkspacePort.t)
    : option WorkspacePort.t :=
  List.find (fun workspacePort =>
               String.eqb (WorkspacePort.portNumber workspacePort)
                          (Js.toString (Port.portNumber port)))
            declared.

Definition isRedirect (workspacePort : WorkspacePort.t) : bool :=
  Js.startsWith (WorkspacePort.serverName workspacePort) SERVER_REDIRECT_PATTERN.

(** Callback when a new port is being opened in workspace.  The two
    [return] statements of the source end the computation before the
    [console.info] of its last line. *)
Definition onOpenPort (port : Port.t) : M World unit :=
  (* if not listening on 0.0.0.0 then raise a prompt to add a port redirect *)
  if internalInterface port then
    askRedirect port (internalDesc port) (internalErr port)
  else
    (* check now if the port is in workspace definition ? *)
    let* declared := gets workspacePorts in
    match findWorkspacePort port declared with
    | Some matchingWorkspacePort =>
        (* internal stuff, no need to display anything *)
        if isRedirect matchingWorkspacePort then ret tt
        else
          let interactions := [ {| title := "Open Link" |} ] in
          let msg := openLinkMessage matchingWorkspacePort in
          let* result := showInformationMessage msg true interactions in
          (if chose "Open Link" result
           then perform (ExecuteCommand "mini-browser.openUrl"
                                        (WorkspacePort.url matchingWorkspacePort))
           else ret tt) >>
          perform (ConsoleInfo (nowListeningTrace port))
    | None =>
        askRedirect port (notExposedDesc port) (notExposedErr port) >>
        perform (ConsoleInfo (nowListeningTrace port))
    end.

Definition onClosedPort (port : Port.t) : M World unit :=
  (* only do a trace *)
  perform (ConsoleInfo (noLongerListeningTrace port)).

(** [start]: [fetched] is the outcome of
    [await workspaceHandler.getWorkspacePorts()] ([WorkspaceHandler] is not
    among the sources).  [filter] builds a new array, so the two
    module-level variables never share their spine. *)
Definition start (fetched : Result (list WorkspacePort.t)) : M World unit :=
  (* first, grab ports of workspace *)
  let* ports := (fun w => (fetched, w)) in
  modify (fun w => mkWorld ports (redirectPorts w) (replies w)
                           (startThrows w) (effects w)) >>
  let* declared := gets workspacePorts in
  modify (fun w => mkWorld (workspacePorts w) (List.filter isRedirect declared) (replies w)
                           (startThrows w) (effects w)) >>
  perform OnDidOpenPort >>
  perform OnDidClosePort >>
  (* start port changes *)
  perform DetectorInit >>
  perform DetectorCheck.

(** ** What a run shows *)

(** The effects performed between two worlds of one run. *)
Definition emitted (w w' : World) : list Effect :=
  drop (length (effects w)) (effects w').

(** The listeners started among some effects, oldest first. *)
Definition listeners (l : list Effect) : list PortRedirectListener :=
  omap (fun e => match e with ListenerStart x => Some x | _ => None end) l.

(** The informational traces among some effects. *)
Definition traces (l : list Effect) : list string :=
  omap (fun e => match e with ConsoleInfo m => Some m | _ => None end) l.

(** A direct "open link" prompt: the information message that [onOpenPort]
    builds for a declared port. *)
Definition isOpenLinkPrompt (e : Effect) : Prop :=
  exists workspacePort modal items,
    e = ShowInformationMessage (openLinkMessage workspacePort) modal items.

(** The bind interface is one of the two wildcards. *)
Definition wildcard (port : Port.t) : Prop :=
  Port.interfaceListen port = LISTEN_ALL_IPV4 \/ Port.interfaceListen port = LISTEN_ALL_IPV6.

(** The effects that one call of [askRedirect] can add. *)
Definition redirectEffect (port : Port.t) (redirectMessage errorMessage : string)
    (e : Effect) : Prop :=
  e = ShowErrorMessage errorMessage true
  \/ e = ShowInformationMessage redirectMessage true [ {| title := "yes" |} ]
  \/ (exists workspacePort, e = ListenerStart (listenerFor port workspacePort))
  \/ (exists workspacePort,
        e = ShowInformationMessage (redirectEnabledMessage port workspacePort) true
                                   [ {| title := "Open Link" |} ])
  \/ (exists url, e = ExecuteCommand "mini-browser.openUrl" url).

End PortsPlugin.

(* ===================================================================== *)
(** * The Che credentials service *)
(* ===================================================================== *)

Module CredentialsChangeEvent.
Record t : Type := mk { service : string; account : string }.
End CredentialsChangeEvent.

Module CheCredentialsService.

(** The parts of the Kubernetes objects that the service reads or writes.
    Optional properties are [option]s; [data] is a JavaScript object used
    as a map from keys to strings. *)
Record V1ObjectMeta : Type := { name : option string }.
Record V1Secret : Type :=
  { metadata : option V1ObjectMeta; data : option (gmap string string) }.

Record Workspace : Type := { id : option string }.

(** An element of the array that [findCredentials] returns; the password
    is [None] when [data] has no [password] key ([undefined]). *)
Record Credential : Type := { account : string; password : option string }.

(** The injected collaborators, none of which is among the sources: the
    Kubernetes client reached through [cheK8SService.makeApiClient] and the
    workspace service.  Each operation is a computation over the state of
    the remote side and may reject. *)
Class Collaborators (Cluster : Type) : Type :=
  { makeApiClient : M Cluster unit;
    currentWorkspace : M Cluster Workspace;
    (* resolves to [secrets.body.items] *)
    listNamespacedSecret : string -> M Cluster (list V1Secret);
    (* [createNamespacedSecret(namespace, body)] *)
    createNamespacedSecret : string -> V1Secret -> M Cluster unit;
    (* [deleteNamespacedSecret(name, namespace)] *)
    deleteNamespacedSecret : string -> string -> M Cluster unit }.

Inductive Effect : Type :=
| Fire (event : CredentialsChangeEvent.t)   (* onDidChangePasswordEmitter.fire *)
| ConsoleError (e : Error).

Section Service.

Context {Cluster : Type} `{Collaborators Cluster}.

(** The remote side and the effects of the service itself, oldest first. *)
Record World : Type := mkWorld { cluster : Cluster; log : list Effect }.

Definition remote {A : Type} (c : M Cluster A) : M World A :=
  fun w => let (r, k) := c (cluster w) in (r, mkWorld k (log w)).

Definition perform (e : Effect) : M World unit :=
  modify (fun w => mkWorld (cluster w) (log w ++ [e])).

Definition getWorkspaceId : M World string :=
  (* grab current workspace *)
  let* workspace := remote currentWorkspace in
  ret (default "" (id workspace)).

(** [secret.metadata && secret.metadata.name &&
    secret.metadata.name.startsWith(service)], as a condition: a missing
    [metadata], a missing [name] and the empty [name] are falsy. *)
Definition named (service : string) (secret : V1Secret) : bool :=
  match metadata secret with
  | Some m =>
      match name m with
      | Some n => negb (String.eqb n "") && Js.startsWith n service
      | None => false
      end
  | None => false
  end.

(** [secret.data!.password]: reading [password] of a missing [data]
    throws. *)
Definition data_password (secret : V1Secret) : Result (option string) :=
  match data secret with
  | Some d => Ok (d !! "password")
  | None => Throw TypeError
  end.

(** [secret.metadata!.name!.substring(service.length + 1)]. *)
Definition name_account (service : string) (secret : V1Secret) : Result string :=
  match metadata secret with
  | Some m =>
      match name m with
      | Some n => Ok (Js.substring (String.length service + 1) n)
      | None => Throw TypeError
      end
  | None => Throw TypeError
  end.

(** The callback of [map] in [findCredentials]. *)
Definition credential (service : string) (secret : V1Secret) : Result Credential :=
  match name_account service secret with
  | Ok a =>
      match data_password secret with
      | Ok p => Ok {| account := a; password := p |}
      | Throw e => Throw e
      end
  | Throw e => Throw e
  end.

(** [Array.prototype.map] with a callback that may throw: the elements
    are visited in order and the first exception ends the call. *)
Fixpoint map_result {A B : Type} (f : A -> Result B) (l : list A) : Result (list B) :=
  match l with
  | [] => Ok []
  | x :: r =>
      match f x with
      | Ok y =>
          match map_result f r with
          | Ok ys => Ok (y :: ys)
          | Throw e => Throw e
          end
      | Throw e => Throw e
      end
  end.

Definition lift {A : Type} (r : Result A) : M World A := fun w => (r, w).

(** [await this.cheK8SService.makeApiClient(k8s.CoreV1Api)
             .listNamespacedSecret(await this.getWorkspaceId())], the
    first statement of [findCredentials], [findPassword] and
    [getPassword]. *)
Definition listSecrets : M World (list V1Secret) :=
  remote makeApiClient >>
  let* namespace := getWorkspaceId in
  remote (listNamespacedSecret namespace).

(** The awaited expression of [deletePassword]. *)
Definition deleteSecret (service account : string) : M World unit :=
  remote makeApiClient >>
  let* namespace := getWorkspaceId in
  remote (deleteNamespacedSecret (service ++ "_" ++ account) namespace).

(** The awaited expression of [setPassword]. *)
Definition createSecret (service account password : string) : M World unit :=
  remote makeApiClient >>
  let* namespace := getWorkspaceId in
  remote (createNamespacedSecret namespace
            {| metadata := Some {| name := Some (service ++ "_" ++ account) |};
               data := Some {[ "password" := password ]} |}).

Definition deletePassword (service account : string) : M World bool :=
  try_catch
    (deleteSecret service account >>
     perform (Fire (CredentialsChangeEvent.mk service account)) >>
     ret true)
    (fun e => perform (ConsoleError e) >> ret false).

Definition findCredentials (service : string) : M World (list Credential) :=
  let* items := listSecrets in
  lift (map_result (credential service) (List.filter (named service) items)).

Definition findPassword (service : string) : M World (option string) :=
  let* items := listSecrets in
  match List.find (named service) items with
  | Some item => lift (data_password item)
  | None => ret None
  end.

Definition getPassword (service account : string) : M World (option string) :=
  let* items := listSecrets in
  match List.find (named service) items with
  | Some item => lift (data_password item)
  | None => ret None
  end.

Definition setPassword (service account password : string) : M World unit :=
  createSecret service account password >>
  perform (Fire (CredentialsChangeEvent.mk service account)).

(** "A secret whose name starts with the service prefix", read on its own:
    the secret has a name and [service] is a prefix of it. *)
Definition nameStartsWith (service : string) (secret : V1Secret) : bool :=
  match metadata secret with
  | Some m =>
      match name m with
      | Some n => Js.startsWith n service
      | None => false
      end
  | None => false
  end.

(** The change events fired so far. *)
Definition fired (w : World) : list CredentialsChangeEvent.t :=
  omap (fun e => match e with Fire ev => Some ev | ConsoleError _ => None end) (log w).

End Service.

Arguments World : clear implicits.

End CheCredentialsService.

(** An in-memory cluster to run the service on: the secrets of every
    namespace in one list, each with its namespace, in creation order.
    Creating a name that exists in the namespace and deleting one that does
    not are rejected; the workspace service answers with a recorded
    outcome. *)
Module MemoryCluster.
Import CheCredentialsService.

Record t : Type :=
  { workspace : Result Workspace; secrets : list (string * V1Secret) }.

Definition secret_name (secret : V1Secret) : option string :=
  m ← metadata secret; name m.

Definition is_at (namespace : string) (nm : option string) (entry : string * V1Secret) : bool :=
  String.eqb (fst entry) namespace && bool_decide (secret_name (snd entry) = nm).

Definition list_secrets (namespace : string) : M t (list V1Secret) :=
  gets (fun k => map snd (List.filter (fun entry => String.eqb (fst entry) namespace) (secrets k))).

Definition create_secret (namespace : string) (body : V1Secret) : M t unit :=
  fun k =>
    if existsb (is_at namespace (secret_name body)) (secrets k)
    then (Throw (Rejected "AlreadyExists"), k)
    else (Ok tt, {| workspace := workspace k; secrets := secrets k ++ [(namespace, body)] |}).

Definition delete_secret (nm namespace : string) : M t unit :=
  fun k =>
    if existsb (is_at namespace (Some nm)) (secrets k)
    then (Ok tt, {| workspace := workspace k;
                    secrets := List.filter (fun entry => negb (is_at namespace (Some nm) entry))
                                           (secrets k) |})
    else (Throw (Rejected "NotFound"), k).

#[global] Instance collaborators : Collaborators t :=
  { makeApiClient := ret tt;
    currentWorkspace := fun k => (workspace k, k);
    listNamespacedSecret := list_secrets;
    createNamespacedSecret := create_secret;
    deleteNamespacedSecret := delete_secret }.

End MemoryCluster.

(* ===================================================================== *)
(** * Scenarios *)
(* ===================================================================== *)

Module Scenario.
Import PortsPlugin.

(** The declaration of the end-to-end scenario: a web application on 3000
    and one redirect target on 9000. *)
Definition declared : list WorkspacePort.t :=
  [ WorkspacePort.mk "3000" "webapp" "https://x/3000";
    WorkspacePort.mk "9000" "theia-redirect-1" "https://x/9000" ].

(** The world after [start] has fetched [declared], with the user's replies
    given and a listener that may or may not start. *)
Definition started (answers : list (option MessageItem)) (listenerThrows : bool) : World :=
  snd (start (Ok declared) (mkWorld [] [] answers (fun _ => listenerThrows) [])).

(** The same declaration without its redirect target: the pool is empty. *)
Definition exhausted (answers : list (option MessageItem)) : World :=
  snd (start (Ok [ WorkspacePort.mk "3000" "webapp" "https://x/3000" ])
             (mkWorld [] [] answers (fun _ => false) [])).

Definition yes : option MessageItem := Some {| title := "yes" |}.
Definition openLink : option MessageItem := Some {| title := "Open Link" |}.

Definition port3000 : Port.t := Port.mk 3000 "0.0.0.0".
Definition port4000 : Port.t := Port.mk 4000 "127.0.0.1".
Definition port5000 : Port.t := Port.mk 5000 "0.0.0.0".
Definition port9000 : Port.t := Port.mk 9000 "::".

End Scenario.

Module CredentialScenario.
Import CheCredentialsService.

Definition secret (nm : string) (d : option (gmap string string)) : V1Secret :=
  {| metadata := Some {| name := Some nm |}; data := d |}.

(** A workspace namespace with one stored credential, and a secret of
    another namespace. *)
Definition stored : World MemoryCluster.t :=
  mkWorld
    {| MemoryCluster.workspace := Ok {| id := Some "workspace1" |};
       MemoryCluster.secrets :=
         [ ("workspace1", secret "git_alice" (Some {[ "password" := "s3cret" ]}));
           ("other", secret "git_eve" None) ] |}
    [].

(** A workspace namespace that holds a secret without [data]. *)
Definition bare : World MemoryCluster.t :=
  mkWorld
    {| MemoryCluster.workspace := Ok {| id := Some "workspace1" |};
       MemoryCluster.secrets := [ ("workspace1", secret "git_old" None) ] |}
    [].

End CredentialScenario.

(* ===================================================================== *)
(** * Invariants and views used beyond the frozen claims *)
(* ===================================================================== *)

Module PortsPluginView.
Import PortsPlugin.

(** Every entry of the pool is an entry of the declaration with the
    reserved prefix, in the order of the declaration. *)
Definition poolDeclared (w : World) : Prop :=
  sublist (redirectPorts w) (List.filter isRedirect (workspacePorts w)).

(** A message is shown with [{ modal: true }]; other effects pass. *)
Definition modalOrSilent (e : Effect) : bool :=
  match e with
  | ShowErrorMessage _ modal => modal
  | ShowInformationMessage _ modal _ => modal
  | _ => true
  end.

End PortsPluginView.

Module CredentialsView.
Import CheCredentialsService.

Definition hasData (secret : V1Secret) : bool :=
  match data secret with
  | Some _ => true
  | None => false
  end.

(** The credential that [findCredentials] builds from a listed secret that
    has a name and a [data] map. *)
Definition listedCredential (service : string) (secret : V1Secret) : Credential :=
  {| account := Js.substring (String.length service + 1)
                             (default "" (m ← metadata secret; name m));
     password := d ← data secret; d !! "password" |}.

(** The workspace service is down. *)
Definition offline : World MemoryCluster.t :=
  mkWorld
    {| MemoryCluster.workspace := Throw (Rejected "no workspace");
       MemoryCluster.secrets := [ ("workspace1", CredentialScenario.secret "git_alice" None) ] |}
    [].

(** The current workspace has no [id]; a secret sits in the namespace with
    the empty name. *)
Definition anonymous : World MemoryCluster.t :=
  mkWorld
    {| MemoryCluster.workspace := Ok {| id := None |};
       MemoryCluster.secrets :=
         [ ("", CredentialScenario.secret "git_alice" (Some {[ "password" := "s3cret" ]})) ] |}
    [].

(** Credentials of two services, one name a prefix of the other. *)
Definition shared : World MemoryCluster.t :=
  mkWorld
    {| MemoryCluster.workspace := Ok {| id := Some "workspace1" |};
       MemoryCluster.secrets :=
         [ ("workspace1", CredentialScenario.secret "github_alice" (Some {[ "password" := "hub" ]}));
           ("workspace1", CredentialScenario.secret "git_bob" (Some {[ "password" := "pw" ]})) ] |}
    [].

End CredentialsView.

(* ===================================================================== *)
(** * [askRedirect] at its awaited question *)
(* ===================================================================== *)

Module PortsPluginAwait.
Import PortsPlugin.

(** The value that an awaited information message resolves to: the user's
    next reply. *)
Definition nextReply : M World (option MessageItem) :=
  let* answers := gets replies in
  modify (fun w => mkWorld (workspacePorts w) (redirectPorts w) (tail answers)
                           (startThrows w) (effects w)) >>
  ret (hd None answers).

(** [askRedirect] from its first statement to the point where it is
    suspended: the pool is checked and either the error is shown and the
    function returns ([false]), or the question is shown and the function
    waits for the answer ([true]).  Other handlers run while it waits. *)
Definition askRedirect_toQuestion (port : Port.t) (redirectMessage errorMessage : string)
    : M World bool :=
  (* grab a free redirect *)
  let* pool := gets redirectPorts in
  if (length pool =? 0)%nat then
    showErrorMessage errorMessage true >> ret false
  else
    let interactions := [ {| title := "yes" |} ] in
    perform (ShowInformationMessage redirectMessage true interactions) >> ret true.

(** [askRedirect] from the arrival of the answer to its end. *)
Definition askRedirect_fromAnswer (port : Port.t) : M World unit :=
  let* result := nextReply in
  if chose "yes" result then redirect port else ret tt.

(** A handler is a promise of its own: its rejection is its result and
    stops nothing else. *)
Definition settled {A : Type} (c : M World A) : M World (Result A) :=
  fun w => let (r, w') := c w in (Ok r, w').

(** Two invocations of [askRedirect], the second made while the first
    awaits its answer; the answers then arrive in the order of the
    questions. *)
Definition twoAskRedirects (portA portB : Port.t) : M World (Result unit * Result unit) :=
  let* askedA := askRedirect_toQuestion portA (notExposedDesc portA) (notExposedErr portA) in
  let* askedB := askRedirect_toQuestion portB (notExposedDesc portB) (notExposedErr portB) in
  let* a := settled (if askedA then askRedirect_fromAnswer portA else ret tt) in
  let* b := settled (if askedB then askRedirect_fromAnswer portB else ret tt) in
  ret (a, b).

Definition port6000 : Port.t := Port.mk 6000 "0.0.0.0".

(** Ports 5000 and 6000 were opened in the same sample; the pool holds the
    one entry for 9000; the user answers 'yes' to the first question,
    dismisses the URL of the first redirect and answers 'yes' to the second
    question. *)
Definition twoOpened : World :=
  Scenario.started [Scenario.yes; None; Scenario.yes] false.

End PortsPluginAwait.

Module CredentialsWords.
Import CheCredentialsService.

Definition secretName (secret : V1Secret) : option string :=
  m ← metadata secret; name m.

(** [data.password] of a secret, when it has one. *)
Definition secretPassword (secret : V1Secret) : option string :=
  d ← data secret; d !! "password".

(** "The password of the first listed secret whose name starts with the
    service prefix". *)
Definition passwordOfFirstWithPrefix (service : string) (items : list V1Secret)
    : option string :=
  secret ← List.find (nameStartsWith service) items; secretPassword secret.

(** A listing that begins with a secret with the empty name. *)
Definition emptyNamed : World MemoryCluster.t :=
  mkWorld
    {| MemoryCluster.workspace := Ok {| id := Some "workspace1" |};
       MemoryCluster.secrets :=
         [ ("workspace1", CredentialScenario.secret "" (Some {[ "password" := "a" ]}));
           ("workspace1", CredentialScenario.secret "x" (Some {[ "password" := "b" ]})) ] |}
    [].

End CredentialsWords.

(* ===================================================================== *)
(** * Properties of the ports plugin *)
(* ===================================================================== *)

Module PortsPluginSpec.
Import PortsPlugin.
#[local] Open Scope list_scope.

Ltac run :=
  unfold askRedirect, redirect, redirectPorts_pop, start_listener,
    showInformationMessage, showErrorMessage, perform,
    bind, ret, throw, gets, modify; simpl.

Lemma pop_snoc {A : Type} (l : list A) (x : A) : pop (l ++ [x]) = (Some x, l).
Proof.
  induction l as [|a l IH]; [reflexivity|].
  change ((a :: l) ++ [x]) with (a :: (l ++ [x])).
  destruct (l ++ [x]) as [|b r] eqn:E.
  - destruct l; discriminate E.
  - cbn [pop]. cbn [pop] in IH. rewrite IH. reflexivity.
Qed.

Lemma nonempty_snoc {A : Type} (l : list A) :
  l <> [] -> exists rest x, l = rest ++ [x].
Proof.
  induction l as [|x l _] using rev_ind; [congruence|]. eauto.
Qed.

Lemma internalInterface_true port :
  Port.interfaceListen port <> LISTEN_ALL_IPV4 ->
  Port.interfaceListen port <> LISTEN_ALL_IPV6 ->
  internalInterface port = true.
Proof.
  intros H4 H6. unfold internalInterface.
  apply String.eqb_neq in H4, H6. rewrite H4, H6. reflexivity.
Qed.

Lemma internalInterface_false port : wildcard port -> internalInterface port = false.
Proof.
  unfold wildcard, internalInterface. intros [-> | ->]; reflexivity.
Qed.

(** Under the data model's invariant (port numbers are unique within the
    declared set), the entry that the lookup yields is the declared entry
    with the port's number. *)
Lemma findWorkspacePort_unique port declared workspacePort :
  NoDup (map WorkspacePort.portNumber declared) ->
  workspacePort ∈ declared ->
  WorkspacePort.portNumber workspacePort = Js.toString (Port.portNumber port) ->
  findWorkspacePort port declared = Some workspacePort.
Proof.
  unfold findWorkspacePort. induction declared as [|d l IH]; simpl.
  - intros _ Hin. inversion Hin.
  - intros [Hnotin Hnd]%NoDup_cons Hin Hnum.
    apply elem_of_cons in Hin as [-> | Hin].
    + rewrite Hnum, String.eqb_refl. reflexivity.
    + destruct (String.eqb_spec (WorkspacePort.portNumber d)
                  (Js.toString (Port.portNumber port))) as [E|_].
      * exfalso. apply Hnotin. rewrite E, <- Hnum.
        apply list_elem_of_In, in_map, list_elem_of_In, Hin.
      * apply IH; assumption.
Qed.

(** C2: with an empty pool [askRedirect] only shows the caller's error
    message, modally: the result world differs from the initial one by that
    single effect, so no question is asked (no reply is consumed), nothing
    is taken from the pool, which stays empty, and no listener is started. *)
Theorem askRedirect_empty_pool port redirectMessage errorMessage w :
  redirectPorts w = [] ->
  askRedirect port redirectMessage errorMessage w =
    (Ok tt, mkWorld (workspacePorts w) [] (replies w) (startThrows w)
                    (effects w ++ [ShowErrorMessage errorMessage true])).
Proof.
  destruct w as [declared pool answers throws done]; simpl.
  intros ->. reflexivity.
Qed.

Lemma askRedirect_empty_pool_witness :
  askRedirect Scenario.port4000 "redirect ?" "no free port" (Scenario.exhausted [Scenario.yes]) =
    (Ok tt, mkWorld [WorkspacePort.mk "3000" "webapp" "https://x/3000"] [] [Scenario.yes]
                    (fun _ => false)
                    [OnDidOpenPort; OnDidClosePort; DetectorInit; DetectorCheck;
                     ShowErrorMessage "no free port" true]).
Proof.
  apply (askRedirect_empty_pool Scenario.port4000 "redirect ?" "no free port"
           (Scenario.exhausted [Scenario.yes])).
  reflexivity.
Defined.

(** [askRedirect] in closed form when the pool is empty. *)
Lemma askRedirect_nil port redirectMessage errorMessage declared answers throws done :
  askRedirect port redirectMessage errorMessage (mkWorld declared [] answers throws done) =
    (Ok tt, mkWorld declared [] answers throws (done ++ [ShowErrorMessage errorMessage true])).
Proof. reflexivity. Qed.

(** [askRedirect] in closed form when the pool ends with [last]. *)
Lemma askRedirect_snoc port redirectMessage errorMessage declared rest last answers throws done :
  askRedirect port redirectMessage errorMessage
              (mkWorld declared (rest ++ [last]) answers throws done) =
    let question := ShowInformationMessage redirectMessage true [ {| title := "yes" |} ] in
    if chose "yes" (hd None answers) then
      if throws (listenerFor port last) then
        (Throw (Rejected "PortRedirectListener.start"),
         mkWorld declared rest (tail answers) throws
                 (done ++ [question; ListenerStart (listenerFor port last)]))
      else
        (Ok tt,
         mkWorld declared rest (tail (tail answers)) throws
                 (done ++ [question; ListenerStart (listenerFor port last);
                           ShowInformationMessage (redirectEnabledMessage port last) true
                                                  [ {| title := "Open Link" |} ]]
                       ++ (if chose "Open Link" (hd None (tail answers))
                           then [ExecuteCommand "mini-browser.openUrl" (WorkspacePort.url last)]
                           else [])))
    else
      (Ok tt, mkWorld declared (rest ++ [last]) (tail answers) throws (done ++ [question])).
Proof.
  run. rewrite length_app, Nat.add_comm. simpl.
  destruct (chose "yes" (hd None answers)); simpl; [|reflexivity].
  rewrite pop_snoc. simpl. fold (listenerFor port last).
  destruct (throws (listenerFor port last)); simpl.
  - rewrite <- app_assoc. reflexivity.
  - destruct (chose "Open Link" (hd None (tail answers))); simpl;
      rewrite <- ?app_assoc; simpl; rewrite ?app_nil_r; reflexivity.
Qed.

Lemma listeners_app l1 l2 : listeners (l1 ++ l2) = listeners l1 ++ listeners l2.
Proof. apply omap_app. Qed.

(** [askRedirect] only adds effects, all of them of the redirect flow; the
    first one is the error message when the pool is empty and the question
    otherwise. *)
Lemma askRedirect_effects port redirectMessage errorMessage w :
  exists rest,
    effects (snd (askRedirect port redirectMessage errorMessage w)) =
      effects w ++
        (if (length (redirectPorts w) =? 0)%nat
         then ShowErrorMessage errorMessage true
         else ShowInformationMessage redirectMessage true [ {| title := "yes" |} ]) :: rest
    /\ Forall (redirectEffect port redirectMessage errorMessage) rest.
Proof.
  destruct w as [declared pool answers throws done].
  destruct pool as [|last pool _] using rev_ind.
  - rewrite askRedirect_nil. exists []. split; [reflexivity | constructor].
  - rewrite askRedirect_snoc. cbv zeta. cbn [redirectPorts effects].
    rewrite length_app, Nat.add_comm. cbn [length Nat.add Nat.eqb].
    destruct (chose "yes" (hd None answers)); [destruct (throws _)|]; cbn [snd effects].
    + eexists. split; [reflexivity|].
      repeat (apply Forall_cons_2; [unfold redirectEffect; eauto 8|]). apply Forall_nil_2.
    + cbn [app]. eexists. split; [reflexivity|].
      destruct (chose "Open Link" (hd None (tail answers)));
        repeat (apply Forall_cons_2; [unfold redirectEffect; eauto 8|]); apply Forall_nil_2.
    + exists []. split; [reflexivity | constructor].
Qed.

Lemma emitted_app w w' new : effects w' = effects w ++ new -> emitted w w' = new.
Proof. unfold emitted. intros ->. apply drop_app_length. Qed.

Lemma redirectEffect_not_openLink port errorMessage e :
  redirectEffect port (internalDesc port) errorMessage e -> ~ isOpenLinkPrompt e.
Proof.
  intros Hr (workspacePort & modal & items & ->).
  destruct Hr as [H | [H | [[? H] | [[? H] | [? H]]]]]; discriminate H.
Qed.

(** C1: on a bind interface that is neither [0.0.0.0] nor [::],
    [onOpenPort] is exactly the [askRedirect] flow with the two messages
    about the internal interface, whatever the declared ports are: its first
    new effect is the modal redirect question (or, with an empty pool, the
    modal error message), and none of its new effects is the direct "open
    link" prompt of a declared port. *)
Theorem onOpenPort_internal_interface port w :
  Port.interfaceListen port <> LISTEN_ALL_IPV4 ->
  Port.interfaceListen port <> LISTEN_ALL_IPV6 ->
  let w' := snd (onOpenPort port w) in
  onOpenPort port w = askRedirect port (internalDesc port) (internalErr port) w
  /\ head (emitted w w') =
       Some (if (length (redirectPorts w) =? 0)%nat
             then ShowErrorMessage (internalErr port) true
             else ShowInformationMessage (internalDesc port) true [ {| title := "yes" |} ])
  /\ Forall (fun e => ~ isOpenLinkPrompt e) (emitted w w').
Proof.
  intros H4 H6 w'.
  assert (Heq : onOpenPort port w = askRedirect port (internalDesc port) (internalErr port) w).
  { unfold onOpenPort. rewrite internalInterface_true by assumption. reflexivity. }
  split; [exact Heq|].
  destruct (askRedirect_effects port (internalDesc port) (internalErr port) w)
    as (rest & Heff & Hrest).
  subst w'. rewrite Heq. rewrite (emitted_app _ _ _ Heff). split; [reflexivity|].
  apply Forall_cons_2.
  - intros (workspacePort & modal & items & H).
    destruct (length (redirectPorts w) =? 0)%nat; discriminate H.
  - eapply Forall_impl; [exact Hrest|].
    intros e He. eapply redirectEffect_not_openLink, He.
Qed.

Lemma onOpenPort_internal_interface_witness :
  let w := Scenario.started [Scenario.yes; Scenario.openLink] false in
  let w' := snd (onOpenPort Scenario.port4000 w) in
  onOpenPort Scenario.port4000 w =
    askRedirect Scenario.port4000 (internalDesc Scenario.port4000)
                (internalErr Scenario.port4000) w
  /\ head (emitted w w') =
       Some (ShowInformationMessage (internalDesc Scenario.port4000) true [ {| title := "yes" |} ])
  /\ Forall (fun e => ~ isOpenLinkPrompt e) (emitted w w').
Proof.
  apply (onOpenPort_internal_interface Scenario.port4000
           (Scenario.started [Scenario.yes; Scenario.openLink] false));
    discriminate.
Defined.

(** The pool never grows in [askRedirect]. *)
Lemma pool_length_askRedirect port redirectMessage errorMessage w :
  length (redirectPorts (snd (askRedirect port redirectMessage errorMessage w)))
    <= length (redirectPorts w).
Proof.
  destruct w as [declared pool answers throws done].
  destruct pool as [|last pool _] using rev_ind.
  - rewrite askRedirect_nil. reflexivity.
  - rewrite askRedirect_snoc. cbv zeta.
    destruct (chose "yes" (hd None answers)); [destruct (throws _)|];
      cbn [snd redirectPorts]; rewrite ?length_app; lia.
Qed.

(** X18: one invocation of [askRedirect] run on its own, that is, with no
    other handler running between its check of the pool and its [pop].
    - With a pool that is not empty and the answer 'yes', the last entry of
      the pool is removed and nothing else, and one listener is started: its
      local port is [parseInt(entry.portNumber, 10)], its remote host
      ['localhost'] and its remote port the opened port; this holds whether
      or not starting the listener throws, and when it throws the call is
      rejected with the entry already removed.
    - With an empty pool, or any other answer, the pool is unchanged and no
      listener is started.
    - In every case, and so also in [onOpenPort] and [onClosedPort], the
      pool is not longer afterwards than before. *)
Theorem askRedirect_pool port redirectMessage errorMessage w :
  let reply := hd None (replies w) in
  let outcome := askRedirect port redirectMessage errorMessage w in
  (redirectPorts w <> [] -> chose "yes" reply = true ->
   exists rest workspacePort,
     redirectPorts w = rest ++ [workspacePort]
     /\ redirectPorts (snd outcome) = rest
     /\ listeners (effects (snd outcome)) =
          listeners (effects w)
            ++ [ {| localPort := Js.parseInt10 (WorkspacePort.portNumber workspacePort);
                    remoteHost := "localhost";
                    remotePort := Port.portNumber port |} ]
     /\ fst outcome =
          if startThrows w
               {| localPort := Js.parseInt10 (WorkspacePort.portNumber workspacePort);
                  remoteHost := "localhost";
                  remotePort := Port.portNumber port |}
          then Throw (Rejected "PortRedirectListener.start")
          else Ok tt)
  /\ (redirectPorts w = [] \/ chose "yes" reply = false ->
      redirectPorts (snd outcome) = redirectPorts w
      /\ listeners (effects (snd outcome)) = listeners (effects w)
      /\ fst outcome = Ok tt)
  /\ length (redirectPorts (snd outcome)) <= length (redirectPorts w)
  /\ length (redirectPorts (snd (onOpenPort port w))) <= length (redirectPorts w)
  /\ redirectPorts (snd (onClosedPort port w)) = redirectPorts w.
Proof.
  intros reply outcome. subst reply outcome.
  split; [|split; [|split; [|split]]].
  - intros Hpool Hyes.
    destruct (nonempty_snoc _ Hpool) as (rest & last & Hlast).
    exists rest, last. split; [exact Hlast|]. fold (listenerFor port last).
    destruct w as [declared pool answers throws done]. cbn [redirectPorts] in Hlast.
    subst pool. cbn [replies] in Hyes. rewrite askRedirect_snoc. cbv zeta.
    rewrite Hyes. cbn [startThrows].
    destruct (throws (listenerFor port last)); cbn [fst snd redirectPorts effects];
      rewrite !listeners_app; cbn [listeners omap];
      repeat split; try reflexivity.
    destruct (chose "Open Link" (hd None (tail answers))); rewrite app_nil_r; reflexivity.
  - destruct w as [declared pool answers throws done]. cbn [redirectPorts replies effects].
    destruct pool as [|last pool _] using rev_ind.
    + intros _. rewrite askRedirect_nil. cbn [fst snd redirectPorts effects].
      rewrite listeners_app. cbn [listeners omap]. rewrite app_nil_r. auto.
    + intros [Hnil | Hno]; [destruct pool; discriminate Hnil|].
      rewrite askRedirect_snoc. cbv zeta. rewrite Hno. cbn [fst snd redirectPorts effects].
      rewrite listeners_app. cbn [listeners omap]. rewrite app_nil_r. auto.
  - apply pool_length_askRedirect.
  - unfold onOpenPort. destruct (internalInterface port); [apply pool_length_askRedirect|].
    unfold bind at 1, gets.
    destruct (findWorkspacePort port (workspacePorts w)) as [matching|].
    + destruct (isRedirect matching); [reflexivity|].
      run. destruct (chose "Open Link" (hd None (replies w))); reflexivity.
    + unfold bind. pose proof (pool_length_askRedirect port (notExposedDesc port)
                                 (notExposedErr port) w) as Hlen.
      destruct (askRedirect port (notExposedDesc port) (notExposedErr port) w) as [[[]|e] w'];
        exact Hlen.
  - reflexivity.
Qed.

Lemma askRedirect_pool_witness :
  let accepted := Scenario.started [Scenario.yes] true in
  let declined := Scenario.started [None] false in
  (exists rest workspacePort,
     redirectPorts accepted = rest ++ [workspacePort]
     /\ redirectPorts (snd (askRedirect Scenario.port5000 "redirect ?" "no free port" accepted)) = rest
     /\ listeners (effects (snd (askRedirect Scenario.port5000 "redirect ?" "no free port" accepted))) =
          listeners (effects accepted)
            ++ [ {| localPort := Js.parseInt10 (WorkspacePort.portNumber workspacePort);
                    remoteHost := "localhost";
                    remotePort := 5000 |} ]
     /\ fst (askRedirect Scenario.port5000 "redirect ?" "no free port" accepted) =
          if startThrows accepted
               {| localPort := Js.parseInt10 (WorkspacePort.portNumber workspacePort);
                  remoteHost := "localhost";
                  remotePort := 5000 |}
          then Throw (Rejected "PortRedirectListener.start")
          else Ok tt)
  /\ (redirectPorts (snd (askRedirect Scenario.port5000 "redirect ?" "no free port" declined)) =
        redirectPorts declined
      /\ listeners (effects (snd (askRedirect Scenario.port5000 "redirect ?" "no free port" declined))) =
           listeners (effects declined)
      /\ fst (askRedirect Scenario.port5000 "redirect ?" "no free port" declined) = Ok tt).
Proof.
  split.
  - apply (proj1 (askRedirect_pool Scenario.port5000 "redirect ?" "no free port"
                    (Scenario.started [Scenario.yes] true))).
    + discriminate.
    + reflexivity.
  - apply (proj1 (proj2 (askRedirect_pool Scenario.port5000 "redirect ?" "no free port"
                           (Scenario.started [None] false)))).
    right. reflexivity.
Defined.

(** [onOpenPort] in closed form on a wildcard interface when the lookup
    yields a declared entry. *)
Lemma onOpenPort_found port w matching :
  wildcard port ->
  findWorkspacePort port (workspacePorts w) = Some matching ->
  onOpenPort port w =
    if isRedirect matching then (Ok tt, w)
    else
      (Ok tt,
       mkWorld (workspacePorts w) (redirectPorts w) (tail (replies w)) (startThrows w)
               (effects w
                  ++ [ShowInformationMessage (openLinkMessage matching) true
                                             [ {| title := "Open Link" |} ]]
                  ++ (if chose "Open Link" (hd None (replies w))
                      then [ExecuteCommand "mini-browser.openUrl" (WorkspacePort.url matching)]
                      else [])
                  ++ [ConsoleInfo (nowListeningTrace port)])).
Proof.
  intros Hwild Hfind. unfold onOpenPort.
  rewrite internalInterface_false by assumption.
  unfold bind at 1, gets. rewrite Hfind.
  destruct (isRedirect matching); [reflexivity|].
  run. destruct (chose "Open Link" (hd None (replies w))); simpl;
    rewrite <- ?app_assoc; reflexivity.
Qed.

(** C4: on a wildcard interface, when the declared entry that the lookup
    yields for the port (the first one with the port's number, the only one
    under the data model's uniqueness invariant) has a server name with the
    reserved prefix, [onOpenPort] returns with the world untouched: no
    effect at all, hence no prompt, and the same pool. *)
Theorem onOpenPort_reserved port w matching :
  wildcard port ->
  findWorkspacePort port (workspacePorts w) = Some matching ->
  Js.startsWith (WorkspacePort.serverName matching) "theia-redirect-" = true ->
  onOpenPort port w = (Ok tt, w).
Proof.
  intros Hwild Hfind Hreserved.
  rewrite (onOpenPort_found port w matching Hwild Hfind).
  unfold isRedirect, SERVER_REDIRECT_PATTERN. rewrite Hreserved. reflexivity.
Qed.

Lemma onOpenPort_reserved_witness :
  onOpenPort Scenario.port9000 (Scenario.started [Scenario.openLink] false) =
    (Ok tt, Scenario.started [Scenario.openLink] false).
Proof.
  apply (onOpenPort_reserved Scenario.port9000 (Scenario.started [Scenario.openLink] false)
           (WorkspacePort.mk "9000" "theia-redirect-1" "https://x/9000")).
  - right. reflexivity.
  - reflexivity.
  - reflexivity.
Defined.

(** C5, as the code has it: on a wildcard interface, when the declared
    entry that the lookup yields for the port has no reserved name,
    [onOpenPort] shows one modal information message with the single item
    'Open Link', whose text ends with the entry's external URL, executes
    [mini-browser.openUrl] on that URL exactly when the reply is
    'Open Link', writes the trace, and leaves both arrays as they were. *)
Theorem onOpenPort_declared port w matching :
  wildcard port ->
  findWorkspacePort port (workspacePorts w) = Some matching ->
  Js.startsWith (WorkspacePort.serverName matching) "theia-redirect-" = false ->
  onOpenPort port w =
    (Ok tt,
     mkWorld (workspacePorts w) (redirectPorts w) (tail (replies w)) (startThrows w)
             (effects w
                ++ [ShowInformationMessage
                      ("A process is now listening on port "
                         ++ WorkspacePort.portNumber matching
                         ++ ". External URL is " ++ WorkspacePort.url matching)%string
                      true [ {| title := "Open Link" |} ]]
                ++ (if chose "Open Link" (hd None (replies w))
                    then [ExecuteCommand "mini-browser.openUrl" (WorkspacePort.url matching)]
                    else [])
                ++ [ConsoleInfo (nowListeningTrace port)])).
Proof.
  intros Hwild Hfind Hreserved.
  rewrite (onOpenPort_found port w matching Hwild Hfind).
  unfold isRedirect, SERVER_REDIRECT_PATTERN. rewrite Hreserved. reflexivity.
Qed.

Lemma onOpenPort_declared_witness :
  onOpenPort Scenario.port3000 (Scenario.started [Scenario.openLink] false) =
    (Ok tt,
     mkWorld Scenario.declared [WorkspacePort.mk "9000" "theia-redirect-1" "https://x/9000"]
             [] (fun _ => false)
             [OnDidOpenPort; OnDidClosePort; DetectorInit; DetectorCheck;
              ShowInformationMessage
                "A process is now listening on port 3000. External URL is https://x/3000"
                true [ {| title := "Open Link" |} ];
              ExecuteCommand "mini-browser.openUrl" "https://x/3000";
              ConsoleInfo "The port 3000 is now listening on interface 0.0.0.0"]).
Proof.
  apply (onOpenPort_declared Scenario.port3000 (Scenario.started [Scenario.openLink] false)
           (WorkspacePort.mk "3000" "webapp" "https://x/3000")).
  - left. reflexivity.
  - reflexivity.
  - reflexivity.
Defined.

(** C5 as the specification states it fails: the 'Open Link' confirmation of a
    declared port is shown with [{ modal: true }]; no information message
    of the run is shown without it. *)
Lemma open_link_prompt_is_modal :
  ~ exists message items,
      In (ShowInformationMessage message false items)
         (emitted (Scenario.started [Scenario.openLink] false)
                  (snd (onOpenPort Scenario.port3000
                          (Scenario.started [Scenario.openLink] false)))).
Proof.
  intros (message & items & Hin). cbn in Hin.
  destruct Hin as [H | [H | [H | []]]]; discriminate H.
Qed.




(** On a wildcard interface, a port that no declared entry has goes through
    [askRedirect]; the trace follows unless that call was rejected. *)
Lemma onOpenPort_undeclared port w :
  wildcard port ->
  findWorkspacePort port (workspacePorts w) = None ->
  onOpenPort port w =
    match askRedirect port (notExposedDesc port) (notExposedErr port) w with
    | (Ok _, w') =>
        (Ok tt, mkWorld (workspacePorts w') (redirectPorts w') (replies w') (startThrows w')
                        (effects w' ++ [ConsoleInfo (nowListeningTrace port)]))
    | (Throw e, w') => (Throw e, w')
    end.
Proof.
  intros Hwild Hfind. unfold onOpenPort.
  rewrite internalInterface_false by assumption.
  unfold bind at 1, gets. rewrite Hfind. reflexivity.
Qed.




(** On a port bound to [127.0.0.1] the user answers 'yes' and then
    'Open Link', the redirect is set up, and [onOpenPort] returns without
    the trace of its last line. *)
Lemma internal_interface_returns_before_trace :
  let w := Scenario.started [Scenario.yes; Scenario.openLink] false in
  emitted w (snd (onOpenPort Scenario.port4000 w)) =
    [ShowInformationMessage (internalDesc Scenario.port4000) true [ {| title := "yes" |} ];
     ListenerStart {| localPort := Some 9000%Z; remoteHost := "localhost"; remotePort := 4000 |};
     ShowInformationMessage "Redirect is now enabled on port 4000. External URL is https://x/9000"
                            true [ {| title := "Open Link" |} ];
     ExecuteCommand "mini-browser.openUrl" "https://x/9000"]
  /\ traces (emitted w (snd (onOpenPort Scenario.port4000 w))) = [].
Proof. split; reflexivity. Qed.

(** X17: when the pool is empty at the moment of the [pop] (another handler
    took the last entry while this one awaited the answer), reading
    [portNumber] of the popped [undefined] throws before any listener is
    built. *)
Lemma redirect_on_empty_pool port w :
  redirectPorts w = [] -> redirect port w = (Throw TypeError, w).
Proof.
  destruct w as [declared pool answers throws done]. simpl. intros ->. reflexivity.
Qed.

(** The declaration is not touched by the redirect flow: the pool is an
    array of its own. *)
Lemma askRedirect_workspacePorts port redirectMessage errorMessage w :
  workspacePorts (snd (askRedirect port redirectMessage errorMessage w)) = workspacePorts w.
Proof.
  destruct w as [declared pool answers throws done].
  destruct pool as [|last pool _] using rev_ind.
  - reflexivity.
  - rewrite askRedirect_snoc. cbv zeta.
    destruct (chose "yes" (hd None answers)); [destruct (throws _)|]; reflexivity.
Qed.

(** C7: [start], once the workspace ports are fetched, stores the fetched
    list itself in [workspacePorts] (same entries, same order) and the
    result of filtering it in [redirectPorts]: the entries of the fetched
    list whose server name starts with [theia-redirect-], and only those,
    in their order. *)
Theorem start_partition fetched w :
  let w' := snd (start (Ok fetched) w) in
  fst (start (Ok fetched) w) = Ok tt
  /\ workspacePorts w' = fetched
  /\ redirectPorts w' =
       List.filter (fun port => Js.startsWith (WorkspacePort.serverName port) "theia-redirect-")
                   fetched
  /\ (forall port, port ∈ redirectPorts w' <->
                   port ∈ fetched
                   /\ Js.startsWith (WorkspacePort.serverName port) "theia-redirect-" = true)
  /\ sublist (redirectPorts w') (workspacePorts w').
Proof.
  cbn. split; [reflexivity|]. split; [reflexivity|]. split; [reflexivity|]. split.
  - intros port. rewrite !list_elem_of_In, filter_In. reflexivity.
  - induction fetched as [|x l IH]; simpl; [constructor|].
    unfold isRedirect at 1, SERVER_REDIRECT_PATTERN.
    destruct (Js.startsWith _ _); [apply sublist_skip | apply sublist_cons]; exact IH.
Qed.

(** The scenarios of the specification, run. *)

(** Port 4000 on [127.0.0.1] with an empty pool: the modal error and nothing
    else; the reply that was ready is not consumed. *)
Example scenario_internal_interface_empty_pool :
  let w := Scenario.exhausted [Scenario.yes] in
  let w' := snd (onOpenPort Scenario.port4000 w) in
  emitted w w' = [ShowErrorMessage (internalErr Scenario.port4000) true]
  /\ replies w' = [Scenario.yes]
  /\ redirectPorts w' = [].
Proof. repeat split. Qed.

(** Port 5000 on [0.0.0.0], not declared, pool of one, the user accepts:
    the pool is empty afterwards and one listener runs from 9000 to
    [localhost:5000]. *)
Example scenario_undeclared_port_accepted :
  let w := Scenario.started [Scenario.yes] false in
  let w' := snd (onOpenPort Scenario.port5000 w) in
  length (redirectPorts w) = 1
  /\ redirectPorts w' = []
  /\ listeners (emitted w w') =
       [ {| localPort := Some 9000%Z; remoteHost := "localhost"; remotePort := 5000 |} ]
  /\ traces (emitted w w') = ["The port 5000 is now listening on interface 0.0.0.0"%string].
Proof. repeat split. Qed.

End PortsPluginSpec.

(* ===================================================================== *)
(** * Properties of the credentials service *)
(* ===================================================================== *)

Module CredentialsSpec.
Import CheCredentialsService.
#[local] Open Scope list_scope.

Section Service.

Context {Cluster : Type} `{!Collaborators Cluster}.

Implicit Types (w : World Cluster) (service account password : string).

Lemma find_head_filter {A : Type} (f : A -> bool) (l : list A) :
  List.find f l = head (List.filter f l).
Proof.
  induction l as [|x l IH]; simpl; [reflexivity|].
  destruct (f x); [reflexivity | exact IH].
Qed.

(** The condition of the source is "the name starts with the service
    prefix" for every secret but one with the empty name, which Kubernetes
    does not store. *)
Lemma named_nameStartsWith service (secret : V1Secret) :
  (forall m, metadata secret = Some m -> name m <> Some ""%string) ->
  named service secret = nameStartsWith service secret.
Proof.
  unfold named, nameStartsWith. intros Hname.
  destruct (metadata secret) as [m|]; [|reflexivity].
  specialize (Hname m eq_refl).
  destruct (name m) as [n|]; [|reflexivity].
  destruct (String.eqb_spec n ""%string) as [->|_]; [congruence | reflexivity].
Qed.

(** The condition of the source holds exactly of the secrets that have a
    name, not empty, with [service] as a prefix. *)
Lemma named_iff service (secret : V1Secret) :
  named service secret = true <->
  exists n, CredentialsWords.secretName secret = Some n
            /\ n <> ""%string /\ Js.startsWith n service = true.
Proof.
  unfold named, CredentialsWords.secretName.
  destruct (metadata secret) as [[[n|]]|]; cbn.
  - destruct (String.eqb_spec n ""%string) as [->|Hne]; cbn.
    + split; [discriminate|]. intros (n & [= <-] & Hn & _). congruence.
    + split; [eauto|]. intros (n' & [= <-] & _ & H). exact H.
  - split; [discriminate|]. intros (n & Hn & _). discriminate Hn.
  - split; [discriminate|]. intros (n & Hn & _). discriminate Hn.
Qed.

Lemma find_first {A : Type} (f : A -> bool) (before after : list A) (x : A) :
  Forall (fun y => f y = false) before -> f x = true ->
  List.find f (before ++ x :: after) = Some x.
Proof.
  induction 1 as [|y before Hy _ IH]; intros Hx; cbn.
  - rewrite Hx. reflexivity.
  - rewrite Hy. apply IH, Hx.
Qed.

Lemma find_none {A : Type} (f : A -> bool) (l : list A) :
  Forall (fun y => f y = false) l -> List.find f l = None.
Proof. induction 1 as [|y l Hy _ IH]; cbn; [reflexivity | rewrite Hy; exact IH]. Qed.

(** C8, as the code has it: from the same state, [getPassword] with any
    account returns what [findPassword] returns, state included, so the
    account has no effect.  When the listing succeeds, both go to the first
    listed secret whose name is not empty and starts with [service]: they
    return its [data.password] when it carries a [data] map and throw a
    [TypeError] when it does not; when no listed secret has such a name they
    return [undefined]. *)
Theorem getPassword_findPassword service a1 a2 w :
  getPassword service a1 w = findPassword service w
  /\ getPassword service a1 w = getPassword service a2 w
  /\ forall items w',
       listSecrets w = (Ok items, w') ->
       (forall before secret after n,
          items = before ++ secret :: after ->
          Forall (fun listed =>
                    forall m, CredentialsWords.secretName listed = Some m ->
                              m <> ""%string -> Js.startsWith m service = false) before ->
          CredentialsWords.secretName secret = Some n ->
          n <> ""%string ->
          Js.startsWith n service = true ->
          (forall d, data secret = Some d ->
                     getPassword service a1 w = (Ok (d !! "password"%string), w'))
          /\ (data secret = None -> getPassword service a1 w = (Throw TypeError, w')))
       /\ (Forall (fun listed =>
                     forall m, CredentialsWords.secretName listed = Some m ->
                               m <> ""%string -> Js.startsWith m service = false) items ->
           getPassword service a1 w = (Ok None, w')).
Proof.
  split; [reflexivity|]. split; [reflexivity|].
  intros items w' Hlist.
  assert (Hunnamed : forall l,
             Forall (fun listed =>
                       forall m, CredentialsWords.secretName listed = Some m ->
                                 m <> ""%string -> Js.startsWith m service = false) l ->
             Forall (fun listed => named service listed = false) l).
  { intros l Hl. eapply Forall_impl; [exact Hl|]. intros listed Hno.
    destruct (named service listed) eqn:Hnamed; [|reflexivity].
    apply named_iff in Hnamed as (m & Hm & Hne & Hpre).
    rewrite (Hno m Hm Hne) in Hpre. discriminate Hpre. }
  unfold getPassword, bind, lift, ret. rewrite Hlist. split.
  - intros before secret after n -> Hbefore Hname Hne Hprefix.
    rewrite (find_first _ _ _ _ (Hunnamed _ Hbefore)
               (proj2 (named_iff service secret) (ex_intro _ n (conj Hname (conj Hne Hprefix))))).
    unfold data_password. split.
    + intros d ->. reflexivity.
    + intros ->. reflexivity.
  - intros Hnone. rewrite (find_none _ _ (Hunnamed _ Hnone)). reflexivity.
Qed.

(** The calls to the remote side leave the log of the service alone. *)
Lemma remote_log {A : Type} (c : M Cluster A) w : log (snd (remote c w)) = log w.
Proof. unfold remote. destruct (c (cluster w)). reflexivity. Qed.

Lemma getWorkspaceId_log w : log (snd (getWorkspaceId w)) = log w.
Proof.
  unfold getWorkspaceId, bind, ret.
  pose proof (remote_log currentWorkspace w) as Hlog.
  destruct (remote currentWorkspace w) as [[ws|e] w1]; exact Hlog.
Qed.

Lemma remote_call_log {A : Type} (call : string -> M Cluster A) w :
  log (snd ((remote makeApiClient >>
             let* namespace := getWorkspaceId in remote (call namespace)) w)) = log w.
Proof.
  unfold bind at 1 2.
  pose proof (remote_log makeApiClient w) as H1.
  destruct (remote makeApiClient w) as [[[]|e] w1]; [|exact H1].
  pose proof (getWorkspaceId_log w1) as H2.
  destruct (getWorkspaceId w1) as [[namespace|e] w2]; cbn [snd] in *; [|congruence].
  rewrite remote_log. congruence.
Qed.

Lemma createSecret_log service account password w :
  log (snd (createSecret service account password w)) = log w.
Proof. unfold createSecret. apply remote_call_log. Qed.

Lemma deleteSecret_log service account w :
  log (snd (deleteSecret service account w)) = log w.
Proof. unfold deleteSecret. apply remote_call_log. Qed.

Lemma setPassword_run service account password w :
  setPassword service account password w =
    match createSecret service account password w with
    | (Ok _, w1) =>
        (Ok tt, mkWorld (cluster w1)
                        (log w1 ++ [Fire (CredentialsChangeEvent.mk service account)]))
    | (Throw e, w1) => (Throw e, w1)
    end.
Proof. reflexivity. Qed.

Lemma deletePassword_run service account w :
  deletePassword service account w =
    match deleteSecret service account w with
    | (Ok _, w1) =>
        (Ok true, mkWorld (cluster w1)
                          (log w1 ++ [Fire (CredentialsChangeEvent.mk service account)]))
    | (Throw e, w1) => (Ok false, mkWorld (cluster w1) (log w1 ++ [ConsoleError e]))
    end.
Proof.
  unfold deletePassword, try_catch, bind.
  destruct (deleteSecret service account w) as [[[]|e] w1]; reflexivity.
Qed.

(** C9: [setPassword] fires the change event for [{service, account}]
    exactly when creating the secret succeeded, after it, and is rejected
    without an event otherwise; [deletePassword] never rejects: it fires the
    event and returns [true] exactly when the remote delete (the lookup of
    the workspace included) succeeded, and on any error returns [false],
    fires nothing and only writes the error to the console.  In both, the
    remote side is left as the remote call left it. *)
Theorem password_change_events service account password w :
  let event := CredentialsChangeEvent.mk service account in
  let created := createSecret service account password w in
  let set := setPassword service account password w in
  let deleted := deleteSecret service account w in
  let del := deletePassword service account w in
  match fst created with
  | Ok _ => fst set = Ok tt /\ fired (snd set) = fired w ++ [event]
  | Throw e => fst set = Throw e /\ fired (snd set) = fired w
  end
  /\ cluster (snd set) = cluster (snd created)
  /\ match fst deleted with
     | Ok _ => fst del = Ok true /\ fired (snd del) = fired w ++ [event]
     | Throw e =>
         fst del = Ok false /\ fired (snd del) = fired w
         /\ log (snd del) = log w ++ [ConsoleError e]
     end
  /\ cluster (snd del) = cluster (snd deleted).
Proof.
  cbv zeta. rewrite setPassword_run, deletePassword_run.
  pose proof (createSecret_log service account password w) as Hc.
  pose proof (deleteSecret_log service account w) as Hd.
  destruct (createSecret service account password w) as [[[]|e] w1];
    destruct (deleteSecret service account w) as [[[]|e'] w2];
    cbn [fst snd cluster] in *; unfold fired; cbn [log];
    rewrite ?omap_app, ?Hc, ?Hd; simpl; rewrite ?app_nil_r;
    repeat split; reflexivity.
Qed.

Lemma startsWith_append (s rest : string) : Js.startsWith (s ++ rest)%string s = true.
Proof.
  unfold Js.startsWith. induction s as [|c s IH]; simpl.
  - destruct rest; reflexivity.
  - destruct (ascii_dec c c); [exact IH | congruence].
Qed.

Lemma append_nonempty (s rest : string) :
  rest <> ""%string -> String.eqb (s ++ rest)%string "" = false.
Proof.
  intros Hrest. apply String.eqb_neq. destruct s; simpl; [exact Hrest | discriminate].
Qed.

(** The account is what remains of the secret name after the service and
    one more character. *)
Lemma substring_account service account :
  Js.substring (String.length service + 1) (service ++ "_" ++ account)%string = account.
Proof. induction service as [|c s IH]; simpl; [reflexivity | exact IH]. Qed.

Lemma named_service_account service account secret :
  metadata secret = Some {| name := Some (service ++ "_" ++ account)%string |} ->
  named service secret = true.
Proof.
  intros Hm. unfold named. rewrite Hm. cbn [name].
  rewrite append_nonempty by discriminate. apply startsWith_append.
Qed.

Lemma map_result_Ok {A B : Type} (f : A -> Result B) (l : list A) :
  Forall (fun x => exists y, f x = Ok y) l ->
  exists ys, map_result f l = Ok ys /\ forall x y, x ∈ l -> f x = Ok y -> y ∈ ys.
Proof.
  induction 1 as [|x l [y Hy] _ (ys & Hys & Hin)]; simpl.
  - exists []. split; [reflexivity|]. intros x y Hx. inversion Hx.
  - rewrite Hy, Hys. exists (y :: ys). split; [reflexivity|].
    intros x' y' [-> | Hx']%elem_of_cons Hf.
    + rewrite Hy in Hf. injection Hf as <-. apply list_elem_of_here.
    + apply list_elem_of_further. eauto.
Qed.

(** C10, as the code has it: once [setPassword] has completed and the
    listing of the workspace namespace contains the secret it stored (named
    [service_account], with [password] under the key [password]), and
    provided every listed secret whose name starts with [service] carries a
    [data] map, [findCredentials service] returns a list that contains
    [{account, password}]; the account is the secret name without its first
    [service.length + 1] characters. *)
Theorem findCredentials_after_setPassword service account password w w1 items w2 secret d :
  setPassword service account password w = (Ok tt, w1) ->
  listSecrets w1 = (Ok items, w2) ->
  secret ∈ items ->
  metadata secret = Some {| name := Some (service ++ "_" ++ account)%string |} ->
  data secret = Some d ->
  d !! "password"%string = Some password ->
  Forall (fun listed => named service listed = true -> data listed <> None) items ->
  exists credentials,
    findCredentials service w1 = (Ok credentials, w2)
    /\ {| account := account; password := Some password |} ∈ credentials
    /\ Js.substring (String.length service + 1) (service ++ "_" ++ account)%string = account.
Proof.
  intros _ Hlist Hin Hmeta Hdata Hpw Hall.
  assert (Hok : Forall (fun x => exists y, credential service x = Ok y)
                       (List.filter (named service) items)).
  { apply List.Forall_forall. intros x [Hx Hnamed]%filter_In.
    apply list_elem_of_In in Hx.
    rewrite Forall_forall in Hall. specialize (Hall x Hx Hnamed).
    unfold credential, name_account, data_password. unfold named in Hnamed.
    destruct (metadata x) as [[[n|]]|]; try discriminate Hnamed.
    destruct (data x); [eauto | congruence]. }
  destruct (map_result_Ok _ _ Hok) as (credentials & Hmap & Hmem).
  exists credentials. split; [|split].
  - unfold findCredentials, bind, lift. rewrite Hlist, Hmap. reflexivity.
  - apply (Hmem secret).
    + apply list_elem_of_In, filter_In. split; [apply list_elem_of_In, Hin|].
      eapply named_service_account, Hmeta.
    + unfold credential, name_account, data_password.
      rewrite Hmeta, Hdata, Hpw. cbn [name]. rewrite substring_account. reflexivity.
  - apply substring_account.
Qed.

End Service.

(** In the in-memory cluster, a secret that [setPassword] has created is in
    the listing of the workspace namespace afterwards. *)
Lemma memory_setPassword_stored service account password (w w1 : World MemoryCluster.t) :
  setPassword service account password w = (Ok tt, w1) ->
  exists items,
    listSecrets w1 = (Ok items, w1)
    /\ {| metadata := Some {| name := Some (service ++ "_" ++ account)%string |};
          data := Some {[ "password"%string := password ]} |} ∈ items.
Proof.
  destruct w as [[ws stored] done]. rewrite setPassword_run.
  unfold createSecret, listSecrets, getWorkspaceId, bind, remote, ret. simpl.
  destruct ws as [ws|e]; [|discriminate]. unfold MemoryCluster.create_secret. simpl.
  destruct (existsb _ stored); [discriminate|]. simpl.
  intros [= <-]. simpl. eexists. split; [reflexivity|].
  apply list_elem_of_In, in_map_iff. eexists (_, _). split; [reflexivity|].
  apply filter_In. split; [apply in_or_app; right; left; reflexivity|].
  apply String.eqb_refl.
Qed.

Lemma findCredentials_after_setPassword_witness :
  let w1 := snd (setPassword "git" "bob" "pw" CredentialScenario.stored) in
  exists credentials,
    findCredentials "git" w1 = (Ok credentials, w1)
    /\ {| account := "bob"; password := Some "pw"%string |} ∈ credentials
    /\ Js.substring (String.length "git" + 1) "git_bob" = "bob"%string.
Proof.
  apply (findCredentials_after_setPassword "git" "bob" "pw" CredentialScenario.stored
           (snd (setPassword "git" "bob" "pw" CredentialScenario.stored))
           [CredentialScenario.secret "git_alice" (Some {[ "password"%string := "s3cret"%string ]});
            CredentialScenario.secret "git_bob" (Some {[ "password"%string := "pw"%string ]})]
           (snd (setPassword "git" "bob" "pw" CredentialScenario.stored))
           (CredentialScenario.secret "git_bob" (Some {[ "password"%string := "pw"%string ]}))
           {[ "password"%string := "pw"%string ]}).
  - reflexivity.
  - reflexivity.
  - apply list_elem_of_further, list_elem_of_here.
  - reflexivity.
  - reflexivity.
  - reflexivity.
  - repeat (apply Forall_cons_2; [intros _; discriminate|]). apply Forall_nil_2.
Defined.

(** C10 as the specification states it fails: the namespace holds [git_old], a secret
    without [data]; [setPassword] stores [git_bob], the listing contains it,
    and [findCredentials] then throws on [git_old] instead of returning a
    list. *)
Lemma findCredentials_throws_on_bare_secret :
  let w1 := snd (setPassword "git" "bob" "pw" CredentialScenario.bare) in
  setPassword "git" "bob" "pw" CredentialScenario.bare = (Ok tt, w1)
  /\ listSecrets w1 =
       (Ok [CredentialScenario.secret "git_old" None;
            CredentialScenario.secret "git_bob" (Some {[ "password"%string := "pw"%string ]})],
        w1)
  /\ findCredentials "git" w1 = (Throw TypeError, w1)
  /\ ~ exists credentials w2,
         findCredentials "git" w1 = (Ok credentials, w2)
         /\ {| account := "bob"; password := Some "pw"%string |} ∈ credentials.
Proof.
  cbv zeta. split; [reflexivity|]. split; [reflexivity|].
  assert (Hthrow : findCredentials "git" (snd (setPassword "git" "bob" "pw" CredentialScenario.bare)) =
                   (Throw TypeError, snd (setPassword "git" "bob" "pw" CredentialScenario.bare)))
    by reflexivity.
  split; [exact Hthrow|].
  intros (credentials & w2 & Hfound & _). rewrite Hthrow in Hfound. discriminate Hfound.
Qed.

(** Deleting a credential that is not stored: the remote call is rejected,
    the service answers [false] and fires nothing. *)
Example deletePassword_missing :
  deletePassword "git" "bob" CredentialScenario.stored =
    (Ok false,
     mkWorld (cluster CredentialScenario.stored) [ConsoleError (Rejected "NotFound")]).
Proof. reflexivity. Qed.

Lemma getPassword_findPassword_witness :
  getPassword "git" "bob" CredentialScenario.stored =
    (Ok (Some "s3cret"%string), CredentialScenario.stored).
Proof.
  assert (Hlist : listSecrets CredentialScenario.stored =
                    (Ok ([] ++ CredentialScenario.secret "git_alice"
                                 (Some {[ "password"%string := "s3cret"%string ]}) :: []),
                     CredentialScenario.stored)) by reflexivity.
  assert (Hne : "git_alice"%string <> ""%string) by discriminate.
  exact (proj1 (proj1 (proj2 (proj2 (getPassword_findPassword "git" "bob" "carol"
                                        CredentialScenario.stored))
                         _ _ Hlist)
                  [] _ [] "git_alice"%string eq_refl (Forall_nil_2 _) eq_refl Hne eq_refl)
           {[ "password"%string := "s3cret"%string ]} eq_refl).
Defined.

(** C8 as the specification states it fails.  In the first listing the
    first secret whose name starts with the prefix [''] is the one with the
    empty name, with the password ['a']; both lookups pass over it and
    return ['b'].  In the second the first secret whose name starts with
    ['git'] has no [data], and both lookups throw instead of returning. *)
Lemma lookups_miss_first_with_prefix :
  let items := [CredentialScenario.secret "" (Some {[ "password"%string := "a"%string ]});
                CredentialScenario.secret "x" (Some {[ "password"%string := "b"%string ]})] in
  listSecrets CredentialsWords.emptyNamed = (Ok items, CredentialsWords.emptyNamed)
  /\ CredentialsWords.passwordOfFirstWithPrefix "" items = Some "a"%string
  /\ getPassword "" "bob" CredentialsWords.emptyNamed =
       (Ok (Some "b"%string), CredentialsWords.emptyNamed)
  /\ findPassword "" CredentialsWords.emptyNamed =
       (Ok (Some "b"%string), CredentialsWords.emptyNamed)
  /\ getPassword "" "bob" CredentialsWords.emptyNamed <>
       (Ok (CredentialsWords.passwordOfFirstWithPrefix "" items), CredentialsWords.emptyNamed)
  /\ listSecrets CredentialScenario.bare =
       (Ok [CredentialScenario.secret "git_old" None], CredentialScenario.bare)
  /\ List.find (nameStartsWith "git") [CredentialScenario.secret "git_old" None] =
       Some (CredentialScenario.secret "git_old" None)
  /\ getPassword "git" "bob" CredentialScenario.bare = (Throw TypeError, CredentialScenario.bare)
  /\ findPassword "git" CredentialScenario.bare = (Throw TypeError, CredentialScenario.bare).
Proof.
  cbv zeta.
  assert (Hget : getPassword "" "bob" CredentialsWords.emptyNamed =
                   (Ok (Some "b"%string), CredentialsWords.emptyNamed)) by reflexivity.
  assert (Hfirst : CredentialsWords.passwordOfFirstWithPrefix ""
                     [CredentialScenario.secret "" (Some {[ "password"%string := "a"%string ]});
                      CredentialScenario.secret "x" (Some {[ "password"%string := "b"%string ]})]
                   = Some "a"%string) by reflexivity.
  split; [reflexivity|]. split; [exact Hfirst|]. split; [exact Hget|].
  split; [reflexivity|]. split.
  - rewrite Hget, Hfirst. intros H. inversion H.
  - repeat split.
Qed.

End CredentialsSpec.

(* ===================================================================== *)
(** * Further properties of the ports plugin *)
(* ===================================================================== *)

Module PortsPluginMore.
Import PortsPlugin PortsPluginView PortsPluginSpec.
#[local] Open Scope list_scope.

Lemma wildcard_of_internalInterface port : internalInterface port = false -> wildcard port.
Proof.
  unfold internalInterface, wildcard. intros H.
  destruct (String.eqb_spec (Port.interfaceListen port) LISTEN_ALL_IPV4) as [E4|_]; [left; exact E4|].
  destruct (String.eqb_spec (Port.interfaceListen port) LISTEN_ALL_IPV6) as [E6|_]; [right; exact E6|].
  discriminate H.
Qed.

(** The three paths of [onOpenPort], each in closed form. *)
Lemma onOpenPort_paths port w :
  onOpenPort port w = askRedirect port (internalDesc port) (internalErr port) w
  \/ (exists matching,
        wildcard port
        /\ findWorkspacePort port (workspacePorts w) = Some matching
        /\ onOpenPort port w =
             if isRedirect matching then (Ok tt, w)
             else
               (Ok tt,
                mkWorld (workspacePorts w) (redirectPorts w) (tail (replies w)) (startThrows w)
                        (effects w
                           ++ [ShowInformationMessage (openLinkMessage matching) true
                                                      [ {| title := "Open Link" |} ]]
                           ++ (if chose "Open Link" (hd None (replies w))
                               then [ExecuteCommand "mini-browser.openUrl"
                                                    (WorkspacePort.url matching)]
                               else [])
                           ++ [ConsoleInfo (nowListeningTrace port)])))
  \/ (wildcard port
      /\ findWorkspacePort port (workspacePorts w) = None
      /\ onOpenPort port w =
           match askRedirect port (notExposedDesc port) (notExposedErr port) w with
           | (Ok _, w') =>
               (Ok tt, mkWorld (workspacePorts w') (redirectPorts w') (replies w') (startThrows w')
                               (effects w' ++ [ConsoleInfo (nowListeningTrace port)]))
           | (Throw e, w') => (Throw e, w')
           end).
Proof.
  destruct (internalInterface port) eqn:Hint.
  - left. unfold onOpenPort. rewrite Hint. reflexivity.
  - apply wildcard_of_internalInterface in Hint. right.
    destruct (findWorkspacePort port (workspacePorts w)) as [matching|] eqn:Hfind.
    + left. exists matching. auto using onOpenPort_found.
    + right. auto using onOpenPort_undeclared.
Qed.

(** Every way [askRedirect] can end, with the world in closed form. *)
Ltac askRedirect_leaves port w :=
  let declared := fresh "declared" in
  let pool := fresh "pool" in
  let answers := fresh "answers" in
  let throws := fresh "throws" in
  let done := fresh "done" in
  let entry := fresh "entry" in
  let Hyes := fresh "Hyes" in
  let Hthrow := fresh "Hthrow" in
  let Hopen := fresh "Hopen" in
  destruct w as [declared pool answers throws done];
  destruct pool as [|entry pool _] using rev_ind;
  [ rewrite askRedirect_nil
  | rewrite askRedirect_snoc; cbv zeta;
    destruct (chose "yes" (hd None answers)) eqn:Hyes;
    [ destruct (throws (listenerFor port entry)) eqn:Hthrow;
      [ | destruct (chose "Open Link" (hd None (tail answers))) eqn:Hopen ]
    | ] ];
  cbn [fst snd workspacePorts redirectPorts replies startThrows effects] in *.

(** Every way [onOpenPort] can end. *)
Ltac onOpenPort_leaves port w :=
  let Heq := fresh "Heq" in
  let Hwild := fresh "Hwild" in
  let Hfind := fresh "Hfind" in
  let matching := fresh "matching" in
  let Hreserved := fresh "Hreserved" in
  let Hopen := fresh "Hopen" in
  destruct (onOpenPort_paths port w)
    as [Heq | [(matching & Hwild & Hfind & Heq) | (Hwild & Hfind & Heq)]];
  rewrite Heq; clear Heq;
  [ askRedirect_leaves port w
  | destruct (isRedirect matching) eqn:Hreserved;
    [ | destruct (chose "Open Link" (hd None (replies w))) eqn:Hopen ];
    cbn [fst snd workspacePorts redirectPorts replies startThrows effects] in *
  | askRedirect_leaves port w ].

(** The effects between two worlds, once the later list is the earlier one
    with something appended. *)
Ltac emit :=
  unfold emitted; cbn [snd effects]; rewrite <- ?app_assoc;
  rewrite ?drop_all, ?drop_app_length; cbn [app].

(** X3: the declaration is read-only after [start]: neither [askRedirect]
    nor the two callbacks change [workspacePorts]. *)
Theorem handlers_keep_declaration port redirectMessage errorMessage w :
  workspacePorts (snd (askRedirect port redirectMessage errorMessage w)) = workspacePorts w
  /\ workspacePorts (snd (onOpenPort port w)) = workspacePorts w
  /\ workspacePorts (snd (onClosedPort port w)) = workspacePorts w.
Proof.
  split; [apply askRedirect_workspacePorts|]. split; [|reflexivity].
  onOpenPort_leaves port w; reflexivity.
Qed.

(** X4: every entry that leaves the pool is matched by one listener start:
    in one run of [onOpenPort] or [askRedirect] the length of the pool plus
    the number of listeners started in the run is the length of the pool
    before. *)
Theorem pool_conservation port redirectMessage errorMessage w :
  length (redirectPorts (snd (onOpenPort port w)))
    + length (listeners (emitted w (snd (onOpenPort port w)))) = length (redirectPorts w)
  /\ length (redirectPorts (snd (askRedirect port redirectMessage errorMessage w)))
     + length (listeners (emitted w (snd (askRedirect port redirectMessage errorMessage w))))
     = length (redirectPorts w).
Proof.
  split.
  - onOpenPort_leaves port w; emit; rewrite ?length_app; simpl; lia.
  - askRedirect_leaves port w; emit; rewrite ?length_app; simpl; lia.
Qed.

Lemma poolDeclared_shrink declared pool entry answers throws done answers' done' :
  poolDeclared (mkWorld declared (pool ++ [entry]) answers throws done) ->
  poolDeclared (mkWorld declared pool answers' throws done').
Proof.
  unfold poolDeclared. cbn [redirectPorts workspacePorts]. intros Hsub.
  transitivity (pool ++ [entry]); [apply sublist_inserts_r; reflexivity | exact Hsub].
Qed.

Lemma poolDeclared_entry w entry :
  poolDeclared w -> entry ∈ redirectPorts w ->
  entry ∈ workspacePorts w /\ isRedirect entry = true.
Proof.
  unfold poolDeclared. intros Hinv Hin.
  apply (elem_of_sublist _ _ _ Hin) in Hinv.
  apply list_elem_of_In, filter_In in Hinv as [Hdecl Hres].
  split; [apply list_elem_of_In, Hdecl | exact Hres].
Qed.

(** X5: [start] makes the pool a sublist of the reserved entries of the
    declaration, and [askRedirect] and the two callbacks keep it one; so
    whatever the pool holds later is a declared entry with the reserved
    prefix. *)
Theorem pool_stays_declared port redirectMessage errorMessage fetched w0 w :
  poolDeclared (snd (start (Ok fetched) w0))
  /\ (poolDeclared w ->
      poolDeclared (snd (askRedirect port redirectMessage errorMessage w))
      /\ poolDeclared (snd (onOpenPort port w))
      /\ poolDeclared (snd (onClosedPort port w))
      /\ forall entry, entry ∈ redirectPorts w ->
           entry ∈ workspacePorts w
           /\ Js.startsWith (WorkspacePort.serverName entry) "theia-redirect-" = true).
Proof.
  split; [unfold poolDeclared; cbn; reflexivity|].
  intros Hinv. split; [|split; [|split]].
  - askRedirect_leaves port w; eauto using poolDeclared_shrink.
  - onOpenPort_leaves port w; eauto using poolDeclared_shrink.
  - exact Hinv.
  - intros entry Hin. exact (poolDeclared_entry w entry Hinv Hin).
Qed.

Lemma pool_stays_declared_witness :
  let w := Scenario.started [Scenario.yes] false in
  poolDeclared (snd (askRedirect Scenario.port5000 "redirect ?" "no free port" w))
  /\ poolDeclared (snd (onOpenPort Scenario.port5000 w))
  /\ poolDeclared (snd (onClosedPort Scenario.port5000 w))
  /\ forall entry, entry ∈ redirectPorts w ->
       entry ∈ workspacePorts w
       /\ Js.startsWith (WorkspacePort.serverName entry) "theia-redirect-" = true.
Proof.
  apply (proj2 (pool_stays_declared Scenario.port5000 "redirect ?" "no free port"
                  Scenario.declared (mkWorld [] [] [Scenario.yes] (fun _ => false) [])
                  (Scenario.started [Scenario.yes] false))).
  apply (proj1 (pool_stays_declared Scenario.port5000 "redirect ?" "no free port"
                  Scenario.declared (mkWorld [] [] [Scenario.yes] (fun _ => false) [])
                  (Scenario.started [Scenario.yes] false))).
Defined.

(** X6: run on its own, [onOpenPort] is rejected only by a listener that
    fails to start: the error is that of [start], the listener was built
    from the last entry of the pool, its start is the last effect (no
    follow-up prompt, no trace), and the entry is gone from the pool. *)
Theorem onOpenPort_rejection port w e :
  fst (onOpenPort port w) = Throw e ->
  e = Rejected "PortRedirectListener.start"
  /\ exists entry,
       redirectPorts w = redirectPorts (snd (onOpenPort port w)) ++ [entry]
       /\ startThrows w (listenerFor port entry) = true
       /\ last (effects (snd (onOpenPort port w))) = Some (ListenerStart (listenerFor port entry)).
Proof.
  onOpenPort_leaves port w; intros H; try discriminate H;
    injection H as <-; (split; [reflexivity|]); eexists; (split; [reflexivity|]);
    (split; [assumption|]);
    change [?q; ?l] with ([q] ++ [l]); rewrite app_assoc; apply last_snoc.
Qed.

Lemma onOpenPort_rejection_witness :
  Rejected "PortRedirectListener.start" = Rejected "PortRedirectListener.start"
  /\ exists entry,
       redirectPorts (Scenario.started [Scenario.yes] true) =
         redirectPorts (snd (onOpenPort Scenario.port5000 (Scenario.started [Scenario.yes] true)))
           ++ [entry]
       /\ startThrows (Scenario.started [Scenario.yes] true)
                      (listenerFor Scenario.port5000 entry) = true
       /\ last (effects (snd (onOpenPort Scenario.port5000 (Scenario.started [Scenario.yes] true))))
            = Some (ListenerStart (listenerFor Scenario.port5000 entry)).
Proof.
  apply (onOpenPort_rejection Scenario.port5000 (Scenario.started [Scenario.yes] true)).
  reflexivity.
Defined.

(** X7: every message that [onOpenPort] shows, error or information, on
    any path, is shown with [{ modal: true }]. *)
Theorem every_message_is_modal port w :
  forallb modalOrSilent (emitted w (snd (onOpenPort port w))) = true.
Proof. onOpenPort_leaves port w; emit; reflexivity. Qed.

(** X8: [onOpenPort] executes no command but [mini-browser.openUrl], on the
    URL of an entry of the declaration or of the pool, and only after the
    user has answered 'Open Link' to its first or second question. *)
Theorem openUrl_needs_consent port w command argument :
  In (ExecuteCommand command argument) (emitted w (snd (onOpenPort port w))) ->
  command = "mini-browser.openUrl"%string
  /\ (exists entry, (entry ∈ workspacePorts w \/ entry ∈ redirectPorts w)
                    /\ argument = WorkspacePort.url entry)
  /\ (chose "Open Link" (hd None (replies w)) = true
      \/ chose "Open Link" (hd None (tail (replies w))) = true).
Proof.
  onOpenPort_leaves port w; emit; cbn [In]; intros Hin;
    repeat (destruct Hin as [Hin|Hin]; [try discriminate Hin|]); try contradiction;
    injection Hin as <- <-; (split; [reflexivity|]); (split; [|auto]).
  - eexists. split; [right; apply elem_of_app; right; apply list_elem_of_here | reflexivity].
  - exists matching. split; [|reflexivity]. left.
    apply list_elem_of_In. eapply find_some, Hfind.
  - eexists. split; [right; apply elem_of_app; right; apply list_elem_of_here | reflexivity].
Qed.

Lemma openUrl_needs_consent_witness :
  "mini-browser.openUrl"%string = "mini-browser.openUrl"%string
  /\ (exists entry, (entry ∈ workspacePorts (Scenario.started [Scenario.openLink] false)
                     \/ entry ∈ redirectPorts (Scenario.started [Scenario.openLink] false))
                    /\ "https://x/3000"%string = WorkspacePort.url entry)
  /\ (chose "Open Link" (hd None (replies (Scenario.started [Scenario.openLink] false))) = true
      \/ chose "Open Link"
               (hd None (tail (replies (Scenario.started [Scenario.openLink] false)))) = true).
Proof.
  apply (openUrl_needs_consent Scenario.port3000 (Scenario.started [Scenario.openLink] false)
           "mini-browser.openUrl" "https://x/3000").
  cbn. right. left. reflexivity.
Defined.

(** X1: a port on a wildcard interface that no declared entry has, while
    the pool is empty: [onOpenPort] shows the modal message that a server
    must be added for the port, writes the trace and returns; no question is
    asked, no reply consumed and no listener started. *)
Theorem onOpenPort_undeclared_exhausted port w :
  wildcard port ->
  findWorkspacePort port (workspacePorts w) = None ->
  redirectPorts w = [] ->
  onOpenPort port w =
    (Ok tt,
     mkWorld (workspacePorts w) [] (replies w) (startThrows w)
             (effects w ++ [ShowErrorMessage (notExposedErr port) true;
                            ConsoleInfo (nowListeningTrace port)])).
Proof.
  intros Hwild Hfind Hpool. rewrite (onOpenPort_undeclared port w Hwild Hfind).
  destruct w as [declared pool answers throws done]. cbn [redirectPorts] in Hpool. subst pool.
  rewrite askRedirect_nil. cbn. rewrite <- app_assoc. reflexivity.
Qed.

Lemma onOpenPort_undeclared_exhausted_witness :
  onOpenPort Scenario.port5000 (Scenario.exhausted [Scenario.yes]) =
    (Ok tt,
     mkWorld [WorkspacePort.mk "3000" "webapp" "https://x/3000"] [] [Scenario.yes]
             (fun _ => false)
             [OnDidOpenPort; OnDidClosePort; DetectorInit; DetectorCheck;
              ShowErrorMessage (notExposedErr Scenario.port5000) true;
              ConsoleInfo "The port 5000 is now listening on interface 0.0.0.0"]).
Proof.
  apply (onOpenPort_undeclared_exhausted Scenario.port5000 (Scenario.exhausted [Scenario.yes])).
  - left. reflexivity.
  - reflexivity.
  - reflexivity.
Defined.



(** X9: when the port numbers of the declaration are unique, a port on a
    wildcard interface that carries the number of a pool entry (the port a
    redirect listens on, or will) is ignored: [onOpenPort] finds the
    reserved entry and returns with the world unchanged. *)
Theorem pool_port_is_ignored port w entry :
  poolDeclared w ->
  NoDup (map WorkspacePort.portNumber (workspacePorts w)) ->
  entry ∈ redirectPorts w ->
  wildcard port ->
  WorkspacePort.portNumber entry = Js.toString (Port.portNumber port) ->
  onOpenPort port w = (Ok tt, w).
Proof.
  intros Hinv Hunique Hin Hwild Hnumber.
  destruct (poolDeclared_entry w entry Hinv Hin) as [Hdeclared Hreserved].
  rewrite (onOpenPort_found port w entry Hwild
             (findWorkspacePort_unique port _ entry Hunique Hdeclared Hnumber)).
  rewrite Hreserved. reflexivity.
Qed.

Lemma pool_port_is_ignored_witness :
  onOpenPort Scenario.port9000 (Scenario.started [Scenario.yes] false) =
    (Ok tt, Scenario.started [Scenario.yes] false).
Proof.
  apply (pool_port_is_ignored Scenario.port9000 (Scenario.started [Scenario.yes] false)
           (WorkspacePort.mk "9000" "theia-redirect-1" "https://x/9000")).
  - unfold poolDeclared. cbn. reflexivity.
  - cbn. repeat (apply NoDup_cons_2; [cbn; rewrite ?elem_of_cons, elem_of_nil; intuition discriminate|]).
    apply NoDup_nil_2.
  - cbn. apply list_elem_of_here.
  - right. reflexivity.
  - reflexivity.
Defined.

Lemma redirect_on_empty_pool_witness :
  redirect Scenario.port5000 (Scenario.exhausted [Scenario.openLink]) =
    (Throw TypeError, Scenario.exhausted [Scenario.openLink]).
Proof.
  apply (redirect_on_empty_pool Scenario.port5000 (Scenario.exhausted [Scenario.openLink])).
  reflexivity.
Defined.

End PortsPluginMore.

(* ===================================================================== *)
(** * Further properties of the credentials service *)
(* ===================================================================== *)

Module CredentialsMore.
Import CheCredentialsService CredentialsView CredentialsSpec.
#[local] Open Scope list_scope.

Section Service.

Context {Cluster : Type} `{!Collaborators Cluster}.

Implicit Types (w : World Cluster) (service account password : string).

Lemma credential_named service (secret : V1Secret) :
  named service secret = true ->
  credential service secret =
    if hasData secret then Ok (listedCredential service secret) else Throw TypeError.
Proof.
  unfold named, credential, name_account, data_password, hasData, listedCredential.
  destruct (metadata secret) as [[[n|]]|]; try discriminate.
  intros _. destruct (data secret); reflexivity.
Qed.

Lemma map_result_named service (l : list V1Secret) :
  Forall (fun secret => named service secret = true) l ->
  map_result (credential service) l =
    if forallb hasData l then Ok (map (listedCredential service) l) else Throw TypeError.
Proof.
  induction 1 as [|secret l Hnamed _ IH]; [reflexivity|].
  cbn [map_result forallb map]. rewrite (credential_named _ _ Hnamed), IH.
  destruct (hasData secret); [|reflexivity].
  destruct (forallb hasData l); reflexivity.
Qed.

(** [findCredentials] in closed form. *)
Lemma findCredentials_run service w :
  findCredentials service w =
    match listSecrets w with
    | (Ok items, w') =>
        (if forallb hasData (List.filter (named service) items)
         then Ok (map (listedCredential service) (List.filter (named service) items))
         else Throw TypeError, w')
    | (Throw e, w') => (Throw e, w')
    end.
Proof.
  unfold findCredentials, bind, lift.
  destruct (listSecrets w) as [[items|e] w']; [|reflexivity].
  rewrite map_result_named; [reflexivity|].
  apply List.Forall_forall. intros secret [_ Hnamed]%filter_In. exact Hnamed.
Qed.

(** X10: once the listing succeeded, [findCredentials] returns one
    credential for each listed secret that has a name, not empty, starting
    with [service], in the order of the listing, when all of these carry a
    [data] map; as soon as one of them does not, it throws a [TypeError]
    and returns nothing. *)
Theorem findCredentials_outcome service w items w' :
  listSecrets w = (Ok items, w') ->
  (Forall (fun secret => named service secret = true -> data secret <> None) items ->
   findCredentials service w =
     (Ok (map (listedCredential service) (List.filter (named service) items)), w'))
  /\ (Exists (fun secret => named service secret = true /\ data secret = None) items ->
      findCredentials service w = (Throw TypeError, w')).
Proof.
  intros Hlist. rewrite findCredentials_run, Hlist. split.
  - intros Hall.
    replace (forallb hasData (List.filter (named service) items)) with true; [reflexivity|].
    symmetry. apply forallb_forall. intros secret [Hin Hnamed]%filter_In.
    rewrite Forall_forall in Hall. specialize (Hall secret (proj2 (list_elem_of_In _ _) Hin) Hnamed).
    unfold hasData. destruct (data secret); congruence.
  - intros (secret & Hin & Hnamed & Hdata)%Exists_exists.
    replace (forallb hasData (List.filter (named service) items)) with false; [reflexivity|].
    symmetry. apply not_true_is_false. intros Hall.
    rewrite forallb_forall in Hall.
    specialize (Hall secret (proj2 (filter_In _ _ _) (conj (proj1 (list_elem_of_In _ _) Hin) Hnamed))).
    unfold hasData in Hall. rewrite Hdata in Hall. discriminate Hall.
Qed.

(** X11: the single lookup agrees with the listing one: whenever
    [findCredentials service] returns a list, [findPassword service] (and so
    [getPassword service] for any account) returns the password of the
    first credential of that list, and [undefined] when the list is
    empty. *)
Theorem findPassword_head_of_findCredentials service account w credentials w' :
  findCredentials service w = (Ok credentials, w') ->
  findPassword service w = (Ok (c ← head credentials; CheCredentialsService.password c), w')
  /\ getPassword service account w =
       (Ok (c ← head credentials; CheCredentialsService.password c), w').
Proof.
  rewrite findCredentials_run. unfold getPassword, findPassword, bind, lift, ret.
  destruct (listSecrets w) as [[items|e] w1]; [|discriminate].
  rewrite find_head_filter.
  destruct (List.filter (named service) items) as [|secret l]; cbn [forallb map head].
  - intros [= <- <-]. split; reflexivity.
  - unfold hasData at 1, data_password.
    destruct (data secret) as [d|] eqn:Hdata; cbn [andb]; [|discriminate].
    destruct (forallb hasData l); [|discriminate].
    intros [= <- <-]. cbn. rewrite Hdata. split; reflexivity.
Qed.

Lemma lift_log {A : Type} (r : Result A) w : log (snd (lift r w)) = log w.
Proof. reflexivity. Qed.

Lemma listSecrets_log w : log (snd (listSecrets w)) = log w.
Proof. unfold listSecrets. apply remote_call_log. Qed.

(** X12: the three lookups only read: whatever the remote side answers,
    [findCredentials], [findPassword] and [getPassword] fire no change event
    and write nothing to the console. *)
Theorem lookups_are_silent service account w :
  log (snd (findCredentials service w)) = log w
  /\ log (snd (findPassword service w)) = log w
  /\ log (snd (getPassword service account w)) = log w.
Proof.
  pose proof (listSecrets_log w) as Hlog.
  unfold findCredentials, findPassword, getPassword, bind, lift, ret.
  destruct (listSecrets w) as [[items|e] w1]; cbn [snd] in *; [|auto].
  destruct (List.find (named service) items); auto.
Qed.

Lemma append_assoc (a b c : string) : ((a ++ b) ++ c = a ++ (b ++ c))%string.
Proof.
  induction a as [|x a IH]; [reflexivity|].
  change (String x ((a ++ b) ++ c) = String x (a ++ (b ++ c)))%string.
  rewrite IH. reflexivity.
Qed.

(** X13: the secret name [service_account] does not keep the two parts
    apart: the account [b] of the service [service_a] and the account [a_b]
    of [service] are one secret.  Setting either creates the same secret
    and deleting either deletes it (same remote calls, same outcome). *)
Theorem secret_name_is_shared service a b password w :
  createSecret (service ++ "_" ++ a) b password w
    = createSecret service (a ++ "_" ++ b) password w
  /\ deleteSecret (service ++ "_" ++ a) b w = deleteSecret service (a ++ "_" ++ b) w
  /\ fst (setPassword (service ++ "_" ++ a) b password w)
       = fst (setPassword service (a ++ "_" ++ b) password w)
  /\ fst (deletePassword (service ++ "_" ++ a) b w)
       = fst (deletePassword service (a ++ "_" ++ b) w).
Proof.
  assert (Hname : ((service ++ "_" ++ a) ++ "_" ++ b = service ++ "_" ++ (a ++ "_" ++ b))%string).
  { rewrite append_assoc. reflexivity. }
  assert (Hcreate : createSecret (service ++ "_" ++ a) b password w
                    = createSecret service (a ++ "_" ++ b) password w).
  { unfold createSecret. rewrite Hname. reflexivity. }
  assert (Hdelete : deleteSecret (service ++ "_" ++ a) b w
                    = deleteSecret service (a ++ "_" ++ b) w).
  { unfold deleteSecret. rewrite Hname. reflexivity. }
  split; [exact Hcreate|]. split; [exact Hdelete|].
  rewrite !setPassword_run, !deletePassword_run, Hcreate, Hdelete.
  destruct (createSecret service (a ++ "_" ++ b) password w) as [[[]|e1] w1];
    destruct (deleteSecret service (a ++ "_" ++ b) w) as [[[]|e2] w2]; split; reflexivity.
Qed.

Lemma substring_past_prefix service rest :
  Js.substring (String.length service + 1) (service ++ rest)%string = Js.substring 1 rest.
Proof. induction service as [|c s IH]; simpl; [reflexivity | exact IH]. Qed.

(** X14: [findCredentials service] does not tell services apart that share
    a prefix: a listed secret stored for the longer service [service ++
    more] and [account] is returned as a credential of [service], with the
    account cut after [service.length + 1] characters of the name. *)
Theorem findCredentials_shares_prefix service more account w items w' secret d :
  listSecrets w = (Ok items, w') ->
  Forall (fun listed => named service listed = true -> data listed <> None) items ->
  secret ∈ items ->
  metadata secret = Some {| name := Some (service ++ more ++ "_" ++ account)%string |} ->
  data secret = Some d ->
  exists credentials,
    findCredentials service w = (Ok credentials, w')
    /\ {| CheCredentialsService.account := Js.substring 1 (more ++ "_" ++ account)%string;
          CheCredentialsService.password := d !! "password"%string |} ∈ credentials.
Proof.
  intros Hlist Hall Hin Hmeta Hdata.
  assert (Hnamed : named service secret = true).
  { unfold named. rewrite Hmeta. cbn [name].
    rewrite append_nonempty, startsWith_append; [reflexivity|].
    destruct more; discriminate. }
  rewrite findCredentials_run, Hlist.
  replace (forallb hasData (List.filter (named service) items)) with true.
  - eexists. split; [reflexivity|].
    apply list_elem_of_In, in_map_iff. exists secret. split.
    + unfold listedCredential. rewrite Hmeta, Hdata. cbn.
      rewrite substring_past_prefix. reflexivity.
    + apply filter_In. split; [apply list_elem_of_In, Hin | exact Hnamed].
  - symmetry. apply forallb_forall. intros listed [Hl Hn]%filter_In.
    rewrite Forall_forall in Hall. specialize (Hall listed (proj2 (list_elem_of_In _ _) Hl) Hn).
    unfold hasData. destruct (data listed); congruence.
Qed.

(** X15: when the workspace service fails, nothing is asked of the secrets:
    [setPassword] and the three lookups are rejected with its error from
    the state that the failed call left, [setPassword] without firing, and
    [deletePassword] swallows the error, writes it to the console and
    returns [false]. *)
Theorem workspace_failure service account password w w1 w2 e :
  remote makeApiClient w = (Ok tt, w1) ->
  remote currentWorkspace w1 = (Throw e, w2) ->
  setPassword service account password w = (Throw e, w2)
  /\ deletePassword service account w =
       (Ok false, mkWorld (cluster w2) (log w2 ++ [ConsoleError e]))
  /\ findCredentials service w = (Throw e, w2)
  /\ findPassword service w = (Throw e, w2)
  /\ getPassword service account w = (Throw e, w2).
Proof.
  intros Hclient Hworkspace.
  assert (Hid : forall (A : Type) (call : string -> M (World Cluster) A),
             (remote makeApiClient >> let* namespace := getWorkspaceId in call namespace) w
             = (Throw e, w2)).
  { intros A call. unfold getWorkspaceId, bind. rewrite Hclient, Hworkspace. reflexivity. }
  assert (Hcreate : createSecret service account password w = (Throw e, w2))
    by exact (Hid _ (fun namespace => remote (createNamespacedSecret namespace _))).
  assert (Hdelete : deleteSecret service account w = (Throw e, w2))
    by exact (Hid _ (fun namespace => remote (deleteNamespacedSecret _ namespace))).
  assert (Hlist : listSecrets w = (Throw e, w2))
    by exact (Hid _ (fun namespace => remote (listNamespacedSecret namespace))).
  rewrite setPassword_run, deletePassword_run, Hcreate, Hdelete.
  unfold findCredentials, findPassword, getPassword, bind. rewrite Hlist. repeat split.
Qed.

(** X16: [workspace.id || '']: for a workspace without an id, or with the
    empty id, the service does not fail; it lists, creates and deletes in
    the namespace with the empty name. *)
Theorem namespace_without_id service account password w w1 w2 workspace :
  remote makeApiClient w = (Ok tt, w1) ->
  remote currentWorkspace w1 = (Ok workspace, w2) ->
  id workspace = None \/ id workspace = Some ""%string ->
  listSecrets w = remote (listNamespacedSecret "") w2
  /\ createSecret service account password w =
       remote (createNamespacedSecret ""
                 {| metadata := Some {| name := Some (service ++ "_" ++ account)%string |};
                    data := Some {[ "password"%string := password ]} |}) w2
  /\ deleteSecret service account w =
       remote (deleteNamespacedSecret (service ++ "_" ++ account)%string "") w2.
Proof.
  intros Hclient Hworkspace Hid.
  assert (Hns : forall (A : Type) (call : string -> M (World Cluster) A),
             (remote makeApiClient >> let* namespace := getWorkspaceId in call namespace) w
             = call ""%string w2).
  { intros A call. unfold getWorkspaceId, bind, ret. rewrite Hclient, Hworkspace.
    destruct Hid as [-> | ->]; reflexivity. }
  split; [|split].
  - exact (Hns _ (fun namespace => remote (listNamespacedSecret namespace))).
  - exact (Hns _ (fun namespace => remote (createNamespacedSecret namespace _))).
  - exact (Hns _ (fun namespace => remote (deleteNamespacedSecret _ namespace))).
Qed.

End Service.

Lemma findCredentials_outcome_witness :
  findCredentials "git" CredentialScenario.stored =
    (Ok [ {| CheCredentialsService.account := "alice"%string;
             CheCredentialsService.password := Some "s3cret"%string |} ],
     CredentialScenario.stored)
  /\ findCredentials "git" CredentialScenario.bare = (Throw TypeError, CredentialScenario.bare).
Proof.
  assert (Hstored : listSecrets CredentialScenario.stored =
                      (Ok [CredentialScenario.secret "git_alice"
                             (Some {[ "password"%string := "s3cret"%string ]})],
                       CredentialScenario.stored)) by reflexivity.
  assert (Hbare : listSecrets CredentialScenario.bare =
                    (Ok [CredentialScenario.secret "git_old" None], CredentialScenario.bare))
    by reflexivity.
  split.
  - apply (proj1 (findCredentials_outcome "git" _ _ _ Hstored)).
    apply Forall_cons_2; [intros _; discriminate | apply Forall_nil_2].
  - apply (proj2 (findCredentials_outcome "git" _ _ _ Hbare)).
    apply Exists_cons_hd. split; reflexivity.
Defined.

Lemma findPassword_head_of_findCredentials_witness :
  findPassword "git" CredentialScenario.stored = (Ok (Some "s3cret"%string), CredentialScenario.stored)
  /\ getPassword "git" "bob" CredentialScenario.stored =
       (Ok (Some "s3cret"%string), CredentialScenario.stored).
Proof.
  apply (findPassword_head_of_findCredentials "git" "bob" CredentialScenario.stored
           [ {| CheCredentialsService.account := "alice"%string;
                CheCredentialsService.password := Some "s3cret"%string |} ]
           CredentialScenario.stored).
  reflexivity.
Defined.

Lemma findCredentials_shares_prefix_witness :
  exists credentials,
    findCredentials "git" shared = (Ok credentials, shared)
    /\ {| CheCredentialsService.account := "ub_alice"%string;
          CheCredentialsService.password := Some "hub"%string |} ∈ credentials.
Proof.
  assert (Hlist : listSecrets shared =
            (Ok [CredentialScenario.secret "github_alice"
                   (Some {[ "password"%string := "hub"%string ]});
                 CredentialScenario.secret "git_bob"
                   (Some {[ "password"%string := "pw"%string ]})],
             shared)) by reflexivity.
  assert (Hall : Forall (fun listed => named "git" listed = true -> data listed <> None)
                   [CredentialScenario.secret "github_alice"
                      (Some {[ "password"%string := "hub"%string ]});
                    CredentialScenario.secret "git_bob"
                      (Some {[ "password"%string := "pw"%string ]})]).
  { repeat (apply Forall_cons_2; [intros _; discriminate|]). apply Forall_nil_2. }
  exact (findCredentials_shares_prefix "git" "hub" "alice" shared _ shared
           (CredentialScenario.secret "github_alice" (Some {[ "password"%string := "hub"%string ]}))
           {[ "password"%string := "hub"%string ]}
           Hlist Hall (list_elem_of_here _ _) eq_refl eq_refl).
Defined.

Lemma workspace_failure_witness :
  setPassword "git" "bob" "pw" offline = (Throw (Rejected "no workspace"), offline)
  /\ deletePassword "git" "bob" offline =
       (Ok false, mkWorld (cluster offline) [ConsoleError (Rejected "no workspace")])
  /\ findCredentials "git" offline = (Throw (Rejected "no workspace"), offline)
  /\ findPassword "git" offline = (Throw (Rejected "no workspace"), offline)
  /\ getPassword "git" "bob" offline = (Throw (Rejected "no workspace"), offline).
Proof.
  apply (workspace_failure "git" "bob" "pw" offline offline offline (Rejected "no workspace")).
  - reflexivity.
  - reflexivity.
Defined.

Lemma namespace_without_id_witness :
  listSecrets anonymous = remote (listNamespacedSecret "") anonymous
  /\ createSecret "git" "bob" "pw" anonymous =
       remote (createNamespacedSecret ""
                 {| metadata := Some {| name := Some "git_bob"%string |};
                    data := Some {[ "password"%string := "pw"%string ]} |}) anonymous
  /\ deleteSecret "git" "bob" anonymous =
       remote (deleteNamespacedSecret "git_bob"%string "") anonymous.
Proof.
  apply (namespace_without_id "git" "bob" "pw" anonymous anonymous anonymous {| id := None |}).
  - reflexivity.
  - reflexivity.
  - left. reflexivity.
Defined.

End CredentialsMore.

(* ===================================================================== *)
(** * [askRedirect] when another handler runs during its await *)
(* ===================================================================== *)

Module PortsPluginRace.
Import PortsPlugin PortsPluginAwait.
#[local] Open Scope list_scope.

(** Showing an information message is showing it and then waiting for the
    reply. *)
Lemma showInformationMessage_then_reply message modal items :
  showInformationMessage message modal items =
    (perform (ShowInformationMessage message modal items) >> nextReply).
Proof. reflexivity. Qed.

(** When nothing runs during the await, the two segments are [askRedirect]. *)
Lemma askRedirect_segments port redirectMessage errorMessage w :
  askRedirect port redirectMessage errorMessage w =
    (let* asked := askRedirect_toQuestion port redirectMessage errorMessage in
     if asked then askRedirect_fromAnswer port else ret tt) w.
Proof.
  destruct w as [declared pool answers throws done].
  destruct pool as [|entry pool]; reflexivity.
Qed.

(** The answer 'yes' on a pool that has been emptied in the meantime:
    [pop] yields [undefined], reading its [portNumber] throws; the reply is
    consumed, the pool stays empty and nothing is started. *)
Lemma askRedirect_fromAnswer_emptied port w :
  redirectPorts w = [] ->
  chose "yes" (hd None (replies w)) = true ->
  askRedirect_fromAnswer port w =
    (Throw TypeError,
     mkWorld (workspacePorts w) [] (tail (replies w)) (startThrows w) (effects w)).
Proof.
  destruct w as [declared pool answers throws done]. cbn [redirectPorts replies].
  intros -> Hyes. unfold askRedirect_fromAnswer, nextReply, bind, gets, modify, ret.
  cbn [replies]. rewrite Hyes. reflexivity.
Qed.

(** C3 on the code: ports 5000 and 6000 are opened in the same sample and
    the pool holds one entry.  Both invocations of [askRedirect] find the
    pool not empty and ask their question.  The first 'yes' takes the entry
    and starts the listener from 9000 to [localhost:5000].  The second
    invocation, also started on a pool that is not empty and also answered
    'yes', pops [undefined] and throws a [TypeError]: it removes no entry
    and starts no listener for port 6000. *)
Theorem askRedirect_pops_after_await :
  let entry := WorkspacePort.mk "9000" "theia-redirect-1" "https://x/9000" in
  let w := twoOpened in
  let wA := snd (askRedirect_toQuestion Scenario.port5000 (notExposedDesc Scenario.port5000)
                                        (notExposedErr Scenario.port5000) w) in
  let askedB := askRedirect_toQuestion port6000 (notExposedDesc port6000)
                                       (notExposedErr port6000) wA in
  let answeredA := askRedirect_fromAnswer Scenario.port5000 (snd askedB) in
  let answeredB := askRedirect_fromAnswer port6000 (snd answeredA) in
  (* the second invocation starts on a pool that is not empty and asks *)
  redirectPorts wA = [entry]
  /\ fst askedB = Ok true
  /\ last (effects (snd askedB)) =
       Some (ShowInformationMessage (notExposedDesc port6000) true [ {| title := "yes" |} ])
  (* the first invocation is confirmed and takes the entry *)
  /\ fst answeredA = Ok tt
  /\ redirectPorts (snd answeredA) = []
  /\ listeners (emitted (snd askedB) (snd answeredA)) =
       [ {| localPort := Some 9000%Z; remoteHost := "localhost"; remotePort := 5000 |} ]
  (* the second invocation is confirmed too *)
  /\ chose "yes" (hd None (replies (snd answeredA))) = true
  /\ fst answeredB = Throw TypeError
  /\ redirectPorts (snd answeredB) = redirectPorts (snd answeredA)
  /\ listeners (emitted (snd answeredA) (snd answeredB)) = []
  (* the two handlers as a whole *)
  /\ fst (twoAskRedirects Scenario.port5000 port6000 w) = Ok (Ok tt, Throw TypeError)
  /\ listeners (emitted w (snd (twoAskRedirects Scenario.port5000 port6000 w))) =
       [ {| localPort := Some 9000%Z; remoteHost := "localhost"; remotePort := 5000 |} ].
Proof.
  cbv zeta. repeat split.
Qed.

End PortsPluginRace.
